(** * ModularChatbot front end: conversation controller and input capture

    A shallow embedding of the React components [MessageInput],
    [ChatInterface] and [App] of the chatbot front end, and the properties
    of the conversation surface stated over it.

    Modelling conventions.
    - A JavaScript string is the list of its UTF-16 code units, so that
      [length] is JavaScript's [.length] and [trim] removes exactly the
      code units ECMAScript calls white space or line terminators.
    - An event handler is a function from the props and state captured by
      the render that created it to the list of calls it makes, in program
      order: state setters, calls of callback props, HTTP requests. The
      owner of a callback prop interprets the call.
    - The part of an [async] function after its [await] is a second
      handler, run when the request settles, on the values its closure
      captured when the request was dispatched. *)

From Stdlib Require Import Strings.String Strings.Ascii.
From Stdlib Require Import List NArith Bool Arith Lia.
Import ListNotations.

(* ------------------------------------------------------------------ *)
(** ** JavaScript strings *)

Module JS.

Definition jsstring := list N.

(** A string literal of the source, as code units. *)
Definition lit (s : string) : jsstring :=
  map N_of_ascii (list_ascii_of_string s).

(** [WhiteSpace] and [LineTerminator] code points of ECMAScript, the ones
    [String.prototype.trim] strips. *)
Definition isWhiteSpace (c : N) : bool :=
  ((9 <=? c) && (c <=? 13) || (c =? 32) || (c =? 160) || (c =? 5760)
   || (8192 <=? c) && (c <=? 8202) || (c =? 8232) || (c =? 8233)
   || (c =? 8239) || (c =? 8287) || (c =? 12288) || (c =? 65279))%N.

Fixpoint trimStart (s : jsstring) : jsstring :=
  match s with
  | [] => []
  | c :: r => if isWhiteSpace c then trimStart r else s
  end.

Definition trimEnd (s : jsstring) : jsstring := rev (trimStart (rev s)).

Definition trim (s : jsstring) : jsstring := trimEnd (trimStart s).

(** A string that does not start with white space. *)
Definition headKept (s : jsstring) : Prop :=
  match s with
  | [] => True
  | c :: _ => isWhiteSpace c = false
  end.

(** Truthiness of a string: every string but the empty one. *)
Definition truthy (s : jsstring) : bool :=
  match s with [] => false | _ :: _ => true end.

(** Truthiness of a value that is a string, [null] or [undefined]. *)
Definition truthy_opt (o : option jsstring) : bool :=
  match o with Some s => truthy s | None => false end.

(** [===] on strings. *)
Fixpoint eqb (a b : jsstring) : bool :=
  match a, b with
  | [], [] => true
  | x :: a', y :: b' => (x =? y)%N && eqb a' b'
  | _, _ => false
  end.

(** [Object.is] on values that are a string or [null]. *)
Definition same (a b : option jsstring) : bool :=
  match a, b with
  | None, None => true
  | Some x, Some y => eqb x y
  | _, _ => false
  end.

End JS.

Import JS.

(* ------------------------------------------------------------------ *)
(** ** MessageInput: the input capture component *)

Module MessageInput.

(** [useState('')] and [useState(false)]. *)
Record State := mkState {
  message : jsstring;
  isComposing : bool
}.

Definition initial : State := mkState [] false.

Definition maxLength : nat := 1000.

(** What a handler does, call by call. [OnSendMessage] is the call of the
    callback prop [onSendMessage]. *)
Inductive Effect :=
| PreventDefault
| OnSendMessage (text : jsstring)
| SetMessage (value : jsstring)
| SetIsComposing (b : bool).

Record KeyEvent := mkKey {
  key : jsstring;
  shiftKey : bool
}.

Definition Enter : jsstring := lit "Enter".

(** Enter, Shift not held. *)
Definition enterKey : KeyEvent := mkKey Enter false.

(** The guard of [handleSubmit]. *)
Definition mayEmit (disabled : bool) (st : State) : bool :=
  truthy (trim (message st)) && negb disabled && negb (isComposing st).

Definition handleSubmit (disabled : bool) (st : State) : list Effect :=
  PreventDefault ::
  (if truthy (trim (message st)) && negb disabled && negb (isComposing st)
   then [OnSendMessage (trim (message st)); SetMessage []]
   else []).

Definition handleKeyDown (disabled : bool) (st : State) (e : KeyEvent)
  : list Effect :=
  if eqb (key e) Enter && negb (shiftKey e)
  then PreventDefault :: handleSubmit disabled st
  else [].

Definition handleCompositionStart : list Effect := [SetIsComposing true].

Definition handleCompositionEnd : list Effect := [SetIsComposing false].

Definition handleChange (value : jsstring) : list Effect :=
  if length value <=? maxLength then [SetMessage value] else [].

(** The [disabled] attribute of the send button. *)
Definition sendButtonDisabled (disabled : bool) (st : State) : bool :=
  disabled || negb (truthy (trim (message st))) || isComposing st.

(** The state setters of a handler, applied in order; the other calls
    leave the component's state alone. *)
Definition apply (st : State) (e : Effect) : State :=
  match e with
  | SetMessage v => mkState v (isComposing st)
  | SetIsComposing b => mkState (message st) b
  | PreventDefault | OnSendMessage _ => st
  end.

Definition run (effs : list Effect) (st : State) : State :=
  fold_left apply effs st.

(** The strings handed to [onSendMessage], in order. *)
Fixpoint emissions (effs : list Effect) : list jsstring :=
  match effs with
  | [] => []
  | OnSendMessage t :: r => t :: emissions r
  | _ :: r => emissions r
  end.

(** [event.defaultPrevented] once the handler has returned. *)
Fixpoint defaultPrevented (effs : list Effect) : bool :=
  match effs with
  | [] => false
  | PreventDefault :: _ => true
  | _ :: r => defaultPrevented r
  end.

(** The draft is cleared by a handler when it calls [setMessage('')]. *)
Fixpoint setsMessage (effs : list Effect) : bool :=
  match effs with
  | [] => false
  | SetMessage _ :: _ => true
  | _ :: r => setsMessage r
  end.

End MessageInput.

(* ------------------------------------------------------------------ *)
(** ** The data exchanged with the chat service *)

(** One entry of [agent_workflow]: [{agent, decision?}]. *)
Module Step.
Record t := mk {
  agent : jsstring;
  decision : option jsstring
}.
End Step.

(** One entry of the timeline: the object literals [userMessage],
    [botMessage] and [errorMessage] of [sendMessage] and the entries of a
    history response. An absent [isError] reads [false], the default of
    the [Message] component. *)
Module Msg.
Record t := mk {
  message : jsstring;
  timestamp : jsstring;
  user_id : jsstring;
  conversation_id : option jsstring;
  agent_workflow : option (list Step.t);
  source_agent_response : option jsstring;
  isError : bool
}.
End Msg.

(** Body of [POST /chat]. *)
Module ChatRequest.
Record t := mk {
  message : jsstring;
  user_id : jsstring;
  conversation_id : option jsstring
}.
End ChatRequest.

(** [response.data] of [POST /chat]. *)
Module ChatResponse.
Record t := mk {
  response : jsstring;
  timestamp : jsstring;
  conversation_id : option jsstring;
  agent_workflow : option (list Step.t);
  source_agent_response : option jsstring
}.
End ChatResponse.

(** [response.data] of [GET /conversations/{id}]. *)
Module HistoryResponse.
Record t := mk {
  messages : option (list Msg.t)
}.
End HistoryResponse.

(* ------------------------------------------------------------------ *)
(** ** ChatInterface: the conversation controller *)

Module ChatInterface.

Record Props := mkProps {
  conversationId : option jsstring;
  userId : jsstring
}.

(** [useState([])] and [useState(false)]. *)
Record State := mkState {
  messages : list Msg.t;
  loading : bool
}.

Definition initial : State := mkState [] false.

(** [AppendMessage m] is [setMessages(prev => [...prev, m])];
    [SetMessages l] is [setMessages(l)]; [OnNewConversation] is the call
    of the callback prop. *)
Inductive Effect :=
| AppendMessage (m : Msg.t)
| SetMessages (l : list Msg.t)
| SetLoading (b : bool)
| AxiosGet (conversationId : jsstring)
| AxiosPost (body : ChatRequest.t)
| ConsoleError
| OnNewConversation (id : jsstring).

Definition bot : jsstring := lit "bot".

Definition errorText : jsstring :=
  lit "Desculpe, ocorreu um erro ao processar sua mensagem. Tente novamente.".

(** [fetchConversationHistory], up to its [await]. The identifier of the
    effect that calls it is truthy, hence a string. *)
Definition fetchConversationHistory (conversationId : jsstring)
  : list Effect :=
  [AxiosGet conversationId].

(** [fetchConversationHistory], after the [await] resolved. *)
Definition fetchConversationHistory_resolved (data : HistoryResponse.t)
  : list Effect :=
  [SetMessages (match HistoryResponse.messages data with
                | Some l => l
                | None => []
                end)].

(** [fetchConversationHistory], the [catch] block. *)
Definition fetchConversationHistory_rejected : list Effect :=
  [ConsoleError; SetMessages []].

(** [useEffect(..., [conversationId])]: run after the first render and
    after every render in which [conversationId] differs from the one of
    the render before. *)
Definition conversationIdEffect (p : Props) : list Effect :=
  match conversationId p with
  | Some c => if truthy c then fetchConversationHistory c
              else [SetMessages []]
  | None => [SetMessages []]
  end.

Definition userMessage (p : Props) (now messageText : jsstring) : Msg.t :=
  Msg.mk messageText now (userId p) (conversationId p) None None false.

Definition botMessage (p : Props) (data : ChatResponse.t) : Msg.t :=
  Msg.mk (ChatResponse.response data) (ChatResponse.timestamp data) bot
         (conversationId p) (ChatResponse.agent_workflow data)
         (ChatResponse.source_agent_response data) false.

Definition errorMessage (p : Props) (now : jsstring) : Msg.t :=
  Msg.mk errorText now bot (conversationId p) None None true.

(** [sendMessage], up to its [await]; [now] is what
    [new Date().toISOString()] returns. *)
Definition sendMessage (p : Props) (now messageText : jsstring)
  : list Effect :=
  if negb (truthy (trim messageText)) then []
  else [AppendMessage (userMessage p now messageText);
        SetLoading true;
        AxiosPost (ChatRequest.mk messageText (userId p) (conversationId p))].

(** [sendMessage], after the [await] resolved, and then [finally]. [p] is
    the props of the render whose [sendMessage] was called. *)
Definition sendMessage_resolved (p : Props) (data : ChatResponse.t)
  : list Effect :=
  AppendMessage (botMessage p data) ::
  (match ChatResponse.conversation_id data with
   | Some id =>
       if negb (truthy_opt (conversationId p)) && truthy id
       then [OnNewConversation id] else []
   | None => []
   end) ++ [SetLoading false].

(** [sendMessage], the [catch] block, and then [finally]. *)
Definition sendMessage_rejected (p : Props) (now : jsstring) : list Effect :=
  [ConsoleError; AppendMessage (errorMessage p now); SetLoading false].

(** The [disabled] prop handed to [MessageInput]: the literal [true] in
    the branch rendered when [conversationId] is falsy, [loading] in the
    other. *)
Definition composerDisabled (p : Props) (st : State) : bool :=
  if truthy_opt (conversationId p) then loading st else true.

Definition apply (st : State) (e : Effect) : State :=
  match e with
  | AppendMessage m => mkState (messages st ++ [m]) (loading st)
  | SetMessages l => mkState l (loading st)
  | SetLoading b => mkState (messages st) b
  | AxiosGet _ | AxiosPost _ | ConsoleError | OnNewConversation _ => st
  end.

Definition run (effs : list Effect) (st : State) : State :=
  fold_left apply effs st.

(** *** Rendering of the workflow metadata *)

Inductive Element :=
| StepAgent (text : jsstring)
| StepDecision (text : jsstring).

(** [<WorkflowStep key={index}>] and its children. *)
Record WorkflowStep := mkWorkflowStep {
  key : nat;
  children : list Element
}.

(** [<AgentWorkflow>]: the title and the steps. *)
Record AgentWorkflow := mkAgentWorkflow {
  title : jsstring;
  steps : list WorkflowStep
}.

Definition workflowTitle : jsstring := lit "Fluxo de Processamento:".

(** The text before [{step.decision}]: a rightwards arrow and a space. *)
Definition arrow : jsstring := [8594%N; 32%N].

(** [step.decision && <StepDecision>...</StepDecision>]: a falsy left
    operand, [undefined] or the empty string, renders nothing. *)
Definition renderStep (index : nat) (step : Step.t) : WorkflowStep :=
  mkWorkflowStep index
    (StepAgent (Step.agent step) ::
     match Step.decision step with
     | Some d => if truthy d then [StepDecision (arrow ++ d)] else []
     | None => []
     end).

(** [workflow.map((step, index) => ...)]. *)
Fixpoint mapi (from : nat) (workflow : list Step.t) : list WorkflowStep :=
  match workflow with
  | [] => []
  | step :: r => renderStep from step :: mapi (S from) r
  end.

Definition renderAgentWorkflow (workflow : option (list Step.t))
  : option AgentWorkflow :=
  match workflow with
  | None => None
  | Some [] => None
  | Some w => Some (mkAgentWorkflow workflowTitle (mapi 0 w))
  end.

(** The props of [<Message>] in the timeline. *)
Record MessageProps := mkMessageProps {
  message : jsstring;
  isUser : bool;
  timestamp : jsstring;
  isError : bool
}.

(** One [<div key={index}>] of the timeline: the bubble, and
    [message.agent_workflow && renderAgentWorkflow(message.agent_workflow)]. *)
Definition renderMessage (p : Props) (m : Msg.t)
  : MessageProps * option AgentWorkflow :=
  (mkMessageProps (Msg.message m) (eqb (Msg.user_id m) (userId p))
                  (Msg.timestamp m) (Msg.isError m),
   match Msg.agent_workflow m with
   | Some w => renderAgentWorkflow (Some w)
   | None => None
   end).

End ChatInterface.

(* ------------------------------------------------------------------ *)
(** ** App: the owner of the active conversation identifier *)

Module App.

(** [useState(null)] and the user identifier drawn once. *)
Record State := mkState {
  currentConversationId : option jsstring;
  userId : jsstring
}.

Inductive Effect :=
| SetCurrentConversationId (id : option jsstring).

(** [onSelectConversation={setCurrentConversationId}], called by the
    conversation list with a string. *)
Definition onSelectConversation (id : jsstring) : list Effect :=
  [SetCurrentConversationId (Some id)].

(** [onNewConversation={() => setCurrentConversationId(null)}]: the
    arrow function takes no parameter. *)
Definition onNewConversation (id : jsstring) : list Effect :=
  [SetCurrentConversationId None].

Definition apply (st : State) (e : Effect) : State :=
  match e with
  | SetCurrentConversationId id => mkState id (userId st)
  end.

Definition run (effs : list Effect) (st : State) : State :=
  fold_left apply effs st.

(** The props [App] renders [ChatInterface] with. *)
Definition chatProps (st : State) : ChatInterface.Props :=
  ChatInterface.mkProps (currentConversationId st) (userId st).

End App.

(* ------------------------------------------------------------------ *)
(** ** The mounted application *)

(** [App] renders one [ChatInterface], which renders one [MessageInput]
    in both of its branches, at the same place of the tree: the three keep
    their state for the life of the page. Every event is handled to its end
    and the tree rendered again before the next is taken. *)
Module System.

(** A request in flight and what the closure awaiting it captured. *)
Inductive Pending :=
| PendingGet (conversationId : jsstring)
| PendingPost (p : ChatInterface.Props) (body : ChatRequest.t).

Record World := mkWorld {
  app : App.State;
  chat : ChatInterface.State;
  input : MessageInput.State;
  pending : list Pending
}.

(** After the first render and its effect, which calls [setMessages([])]
    as [conversationId] is [null]. *)
Definition initial (userId : jsstring) : World :=
  mkWorld (App.mkState None userId) ChatInterface.initial
          MessageInput.initial [].

Definition activeId (w : World) : option jsstring :=
  App.currentConversationId (app w).

Definition timeline (w : World) : list Msg.t :=
  ChatInterface.messages (chat w).

(** One call made by [ChatInterface] on behalf of the render with props
    [p]: a setter changes its state, a request joins the ones in flight,
    [onNewConversation] is [App]'s arrow function. *)
Definition chatCall (p : ChatInterface.Props) (w : World)
  (e : ChatInterface.Effect) : World :=
  match e with
  | ChatInterface.AxiosGet c =>
      mkWorld (app w) (chat w) (input w) (pending w ++ [PendingGet c])
  | ChatInterface.AxiosPost body =>
      mkWorld (app w) (chat w) (input w) (pending w ++ [PendingPost p body])
  | ChatInterface.OnNewConversation id =>
      mkWorld (App.run (App.onNewConversation id) (app w))
              (chat w) (input w) (pending w)
  | _ =>
      mkWorld (app w) (ChatInterface.apply (chat w) e) (input w) (pending w)
  end.

Definition chatCalls (p : ChatInterface.Props)
  (effs : list ChatInterface.Effect) (w : World) : World :=
  fold_left (chatCall p) effs w.

(** One call made by [MessageInput]; [onSendMessage] is the [sendMessage]
    of the render with props [p]. *)
Definition inputCall (now : jsstring) (p : ChatInterface.Props) (w : World)
  (e : MessageInput.Effect) : World :=
  match e with
  | MessageInput.OnSendMessage text =>
      chatCalls p (ChatInterface.sendMessage p now text) w
  | _ =>
      mkWorld (app w) (chat w) (MessageInput.apply (input w) e) (pending w)
  end.

Definition inputCalls (now : jsstring) (p : ChatInterface.Props)
  (effs : list MessageInput.Effect) (w : World) : World :=
  fold_left (inputCall now p) effs w.

(** The render after an event: when [conversationId] is not the one of the
    render before, the effect of [ChatInterface] runs. *)
Definition commit (before after : World) : World :=
  if same (activeId before) (activeId after) then after
  else chatCalls (App.chatProps (app after))
         (ChatInterface.conversationIdEffect (App.chatProps (app after)))
         after.

Inductive Outcome :=
| History (data : HistoryResponse.t)
| Chat (data : ChatResponse.t)
| Failure.

Inductive Event :=
| Change (value : jsstring)
| KeyDown (e : MessageInput.KeyEvent) (caret : nat)
| Click
| CompositionStart
| CompositionEnd
| SelectConversation (id : jsstring)
| Settle (i : nat) (o : Outcome).

(** What a text area does with an Enter key press nobody prevented: a
    line feed goes in at the caret. *)
Definition insertLineBreak (caret : nat) (s : jsstring) : jsstring :=
  firstn caret s ++ 10%N :: skipn caret s.

Fixpoint removeNth (i : nat) (l : list Pending) : list Pending :=
  match i, l with
  | _, [] => []
  | O, _ :: r => r
  | S j, x :: r => x :: removeNth j r
  end.

Definition settled (i : nat) (w : World) : World :=
  mkWorld (app w) (chat w) (input w) (removeNth i (pending w)).

(** The handler of one event, on the props and state of the last render. *)
Definition handle (now : jsstring) (ev : Event) (w : World) : World :=
  let p := App.chatProps (app w) in
  let disabled := ChatInterface.composerDisabled p (chat w) in
  match ev with
  | Change value =>
      inputCalls now p (MessageInput.handleChange value) w
  | KeyDown e caret =>
      let effs := MessageInput.handleKeyDown disabled (input w) e in
      let w1 := inputCalls now p effs w in
      if negb (MessageInput.defaultPrevented effs)
         && eqb (MessageInput.key e) MessageInput.Enter
      then inputCalls now p
             (MessageInput.handleChange
                (insertLineBreak caret (MessageInput.message (input w)))) w1
      else w1
  | Click =>
      inputCalls now p (MessageInput.handleSubmit disabled (input w)) w
  | CompositionStart =>
      inputCalls now p MessageInput.handleCompositionStart w
  | CompositionEnd =>
      inputCalls now p MessageInput.handleCompositionEnd w
  | SelectConversation id =>
      mkWorld (App.run (App.onSelectConversation id) (app w))
              (chat w) (input w) (pending w)
  | Settle i o =>
      match nth_error (pending w) i, o with
      | Some (PendingGet _), History data =>
          chatCalls p (ChatInterface.fetchConversationHistory_resolved data)
                    (settled i w)
      | Some (PendingGet _), Failure =>
          chatCalls p ChatInterface.fetchConversationHistory_rejected
                    (settled i w)
      | Some (PendingPost p0 _), Chat data =>
          chatCalls p0 (ChatInterface.sendMessage_resolved p0 data)
                    (settled i w)
      | Some (PendingPost p0 _), Failure =>
          chatCalls p0 (ChatInterface.sendMessage_rejected p0 now)
                    (settled i w)
      | _, _ => w
      end
  end.

Definition step (now : jsstring) (ev : Event) (w : World) : World :=
  commit w (handle now ev w).

(** A run of the page: the events in the order they are taken, each with
    the clock reading its handler sees. *)
Definition exec (evs : list (jsstring * Event)) (w : World) : World :=
  fold_left (fun w ne => step (fst ne) (snd ne) w) evs w.

(** The sends in flight. *)
Fixpoint outstandingSends (l : list Pending) : nat :=
  match l with
  | [] => 0
  | PendingPost _ _ :: r => S (outstandingSends r)
  | PendingGet _ :: r => outstandingSends r
  end.

(** The flag [loading] is up exactly when one send is in flight and down
    exactly when none is. *)
Definition loadingTracksSend (w : World) : Prop :=
  outstandingSends (pending w)
  = if ChatInterface.loading (chat w) then 1 else 0.

(** The [disabled] prop of the composer in the current render. *)
Definition composerDisabled (w : World) : bool :=
  ChatInterface.composerDisabled (App.chatProps (app w)) (chat w).

(** The two ways of asking for a send: the button, or Enter without Shift
    with the caret anywhere. *)
Definition isTrigger (ev : Event) : Prop :=
  ev = Click \/ exists caret, ev = KeyDown MessageInput.enterKey caret.

End System.

(* ------------------------------------------------------------------ *)
(** ** Sample data *)

(** The values the examples run on: a user, two conversations, clock
    readings, and the exchange of the service's documentation. *)
Module Sample.

Definition user : jsstring := lit "user-k3x9q2m1z".
Definition convA : jsstring := lit "conv-1a2b3c4d".
Definition convB : jsstring := lit "conv-5e6f7a8b".
Definition t0 : jsstring := lit "2024-01-01T12:00:00.000Z".
Definition t1 : jsstring := lit "2024-01-01T12:00:05.000Z".
Definition t2 : jsstring := lit "2024-01-01T12:00:09.000Z".

Definition question : jsstring := lit "Qual a taxa da maquininha?".

(** ["Ola!"] with its acute accent: U+00E1. *)
Definition greeting : jsstring := [79; 108; 225; 33]%N.

Definition routed : Step.t :=
  Step.mk (lit "RouterAgent") (Some (lit "KnowledgeAgent")).

Definition reply : ChatResponse.t :=
  ChatResponse.mk greeting t1 (Some (lit "conv-9")) (Some [routed]) None.

(** An earlier turn of conversation A, as the history endpoint returns
    it. *)
Definition earlier : Msg.t :=
  Msg.mk (lit "Oi") t0 user (Some convA) None None false.

(** Conversation A is open, its history has arrived, and the question is
    in the draft. *)
Definition ready : System.World :=
  System.exec
    [(t0, System.SelectConversation convA);
     (t0, System.Settle 0
            (System.History (HistoryResponse.mk (Some [earlier]))));
     (t0, System.Change question)]
    (System.initial user).

End Sample.

(* ------------------------------------------------------------------ *)
(** ** Message: one bubble of the timeline *)

Module Message.

(** The person, the warning sign with its variation selector, the robot,
    as surrogate pairs where the code point needs one. *)
Definition getUserIcon (p : ChatInterface.MessageProps) : jsstring :=
  if ChatInterface.isUser p then [55357; 56420]%N
  else if ChatInterface.isError p then [9888; 65039]%N
  else [55358; 56598]%N.

(** ["Voce"] with its circumflex, U+00EA; ["Erro"]; ["Assistente"]. *)
Definition getUserLabel (p : ChatInterface.MessageProps) : jsstring :=
  if ChatInterface.isUser p then [86; 111; 99; 234]%N
  else if ChatInterface.isError p then lit "Erro"
  else lit "Assistente".

(** [background-color] of [MessageBubble]. *)
Definition backgroundColor (p : ChatInterface.MessageProps) : jsstring :=
  if ChatInterface.isUser p then lit "#007bff"
  else if ChatInterface.isError p then lit "#dc3545"
  else lit "#f8f9fa".

(** [justify-content] of [MessageContainer]. *)
Definition justifyContent (p : ChatInterface.MessageProps) : jsstring :=
  if ChatInterface.isUser p then lit "flex-end" else lit "flex-start".

End Message.

(* ------------------------------------------------------------------ *)
(** ** ConversationList: the side bar *)

(** [response.data] of [GET /conversations/user/{userId}]. *)
Module UserConversations.
Record t := mk {
  conversation_ids : option (list jsstring)
}.
End UserConversations.

Module ConversationList.

Record Props := mkProps {
  userId : jsstring;
  currentConversationId : option jsstring
}.

(** [useState([])] and [useState(true)]. *)
Record State := mkState {
  conversations : list jsstring;
  loading : bool
}.

Definition initial : State := mkState [] true.

Inductive Effect :=
| SetConversations (l : list jsstring)
| SetLoading (b : bool)
| AxiosGet (userId : jsstring)
| ConsoleError
| OnSelectConversation (id : jsstring).

(** [fetchConversations], up to its [await]. *)
Definition fetchConversations (p : Props) : list Effect :=
  [SetLoading true; AxiosGet (userId p)].

(** [fetchConversations], after the [await] resolved, and [finally]. *)
Definition fetchConversations_resolved (data : UserConversations.t)
  : list Effect :=
  [SetConversations (match UserConversations.conversation_ids data with
                     | Some l => l
                     | None => []
                     end);
   SetLoading false].

(** [fetchConversations], the [catch] block, and [finally]. *)
Definition fetchConversations_rejected : list Effect :=
  [ConsoleError; SetConversations []; SetLoading false].

(** [`conv-${uuidv4().substr(0, 8)}`], for the string [uuidv4()]
    returned. *)
Definition newConversationId (uuid : jsstring) : jsstring :=
  lit "conv-" ++ firstn 8 uuid.

Definition createNewConversation (uuid : jsstring) : list Effect :=
  [OnSelectConversation (newConversationId uuid)].

Definition handleConversationSelect (conversationId : jsstring)
  : list Effect :=
  [OnSelectConversation conversationId].

Definition apply (st : State) (e : Effect) : State :=
  match e with
  | SetConversations l => mkState l (loading st)
  | SetLoading b => mkState (conversations st) b
  | AxiosGet _ | ConsoleError | OnSelectConversation _ => st
  end.

Definition run (effs : list Effect) (st : State) : State :=
  fold_left apply effs st.

(** The identifiers handed to [onSelectConversation], in order. *)
Fixpoint selections (effs : list Effect) : list jsstring :=
  match effs with
  | [] => []
  | OnSelectConversation id :: r => id :: selections r
  | _ :: r => selections r
  end.

(** [<ConversationItem key={conversationId} active={...}>]. *)
Record Item := mkItem {
  conversationId : jsstring;
  active : bool
}.

(** What is rendered: the notice while loading, without the button; the
    button and the notice of an empty list; the button and the items. *)
Inductive View :=
| Loading
| EmptyState
| Items (l : list Item).

Definition render (p : Props) (st : State) : View :=
  if loading st then Loading
  else match conversations st with
       | [] => EmptyState
       | l =>
           Items (map (fun c =>
                         mkItem c (same (Some c) (currentConversationId p)))
                      l)
       end.

(** The props [App] renders the list with. *)
Definition props (st : App.State) : Props :=
  mkProps (App.userId st) (App.currentConversationId st).

End ConversationList.

(* ------------------------------------------------------------------ *)
(** ** The page as a whole *)

Module Page.

(** ['user-' + Math.random().toString(36).substr(2, 9)], for the digits
    drawn. *)
Definition userIdOf (digits : jsstring) : jsstring := lit "user-" ++ digits.

(** [message.length > maxLength * 0.8], the condition of the counter. The
    product is the double 800; against a length, a whole number, the
    comparison is the one with 800. *)
Definition showCharacterCount (st : MessageInput.State) : bool :=
  800 <? length (MessageInput.message st).

(** The two numbers of the counter, [{message.length}/{maxLength}]. *)
Definition characterCount (st : MessageInput.State) : nat * nat :=
  (length (MessageInput.message st), MessageInput.maxLength).

(** A request in flight as the handlers of a page of user [uid] dispatch
    it: a fetch for a truthy identifier; a send made under a truthy
    identifier, for that user and that identifier, of a text that is not
    empty and is its own trim. *)
Definition dispatched (uid : jsstring) (pd : System.Pending) : Prop :=
  match pd with
  | System.PendingGet c => truthy c = true
  | System.PendingPost p body =>
      truthy_opt (ChatInterface.conversationId p) = true
      /\ ChatInterface.userId p = uid
      /\ ChatRequest.user_id body = uid
      /\ ChatRequest.conversation_id body = ChatInterface.conversationId p
      /\ ChatRequest.message body <> []
      /\ trim (ChatRequest.message body) = ChatRequest.message body
  end.

(** What every handler keeps, from the first render on. *)
Record Invariant (uid : jsstring) (w : System.World) : Prop := mkInvariant {
  inv_user : App.userId (System.app w) = uid;
  inv_draft :
    length (MessageInput.message (System.input w))
    <= MessageInput.maxLength;
  inv_pending : Forall (dispatched uid) (System.pending w);
  inv_idle :
    System.activeId w = None ->
    System.timeline w = [] /\ System.pending w = []
    /\ ChatInterface.loading (System.chat w) = false;
  inv_loading : System.loadingTracksSend w
}.

(** The ways one step changes the page: the composer alone; a send
    started; a conversation selected; a history fetch settled; a send
    settled into the timeline; a send made under no identifier resolved
    with one. *)
Inductive Shape (now : jsstring) (w w' : System.World) : Prop :=
| ShapeInput (st : MessageInput.State) :
    MessageInput.message st = MessageInput.message (System.input w)
    \/ length (MessageInput.message st) <= MessageInput.maxLength ->
    w' = System.mkWorld (System.app w) (System.chat w) st
           (System.pending w) ->
    Shape now w w'
| ShapeSend :
    MessageInput.mayEmit (System.composerDisabled w) (System.input w)
    = true ->
    w' = System.mkWorld (System.app w)
           (ChatInterface.mkState
              (System.timeline w ++
               [ChatInterface.userMessage (App.chatProps (System.app w)) now
                  (trim (MessageInput.message (System.input w)))]) true)
           (MessageInput.mkState []
              (MessageInput.isComposing (System.input w)))
           (System.pending w ++
            [System.PendingPost (App.chatProps (System.app w))
               (ChatRequest.mk
                  (trim (MessageInput.message (System.input w)))
                  (App.userId (System.app w))
                  (System.activeId w))]) ->
    Shape now w w'
| ShapeSelect (id : jsstring) :
    same (System.activeId w) (Some id) = false ->
    w' = (if truthy id
          then System.mkWorld
                 (App.mkState (Some id) (App.userId (System.app w)))
                 (System.chat w) (System.input w)
                 (System.pending w ++ [System.PendingGet id])
          else System.mkWorld
                 (App.mkState (Some id) (App.userId (System.app w)))
                 (ChatInterface.mkState []
                    (ChatInterface.loading (System.chat w)))
                 (System.input w) (System.pending w)) ->
    Shape now w w'
| ShapeFetched (i : nat) (c : jsstring) (l : list Msg.t) :
    nth_error (System.pending w) i = Some (System.PendingGet c) ->
    w' = System.mkWorld (System.app w)
           (ChatInterface.mkState l (ChatInterface.loading (System.chat w)))
           (System.input w) (System.removeNth i (System.pending w)) ->
    Shape now w w'
| ShapeAnswered (i : nat) (p : ChatInterface.Props) (body : ChatRequest.t)
    (m : Msg.t) :
    nth_error (System.pending w) i = Some (System.PendingPost p body) ->
    w' = System.mkWorld (System.app w)
           (ChatInterface.mkState (System.timeline w ++ [m]) false)
           (System.input w) (System.removeNth i (System.pending w)) ->
    Shape now w w'
| ShapeAdopted (i : nat) (p : ChatInterface.Props) (body : ChatRequest.t) :
    nth_error (System.pending w) i = Some (System.PendingPost p body) ->
    truthy_opt (ChatInterface.conversationId p) = false ->
    ChatInterface.loading (System.chat w') = false ->
    System.input w' = System.input w ->
    System.pending w' = System.removeNth i (System.pending w) ->
    (length (System.timeline w') = S (length (System.timeline w))
     /\ firstn (length (System.timeline w)) (System.timeline w')
        = System.timeline w
     \/ same (System.activeId w) (System.activeId w') = false
        /\ System.timeline w' = []) ->
    Shape now w w'.

End Page.

(* ------------------------------------------------------------------ *)
(** * Properties *)

(** ** Strings *)

Section Trim.

Lemma trimStart_headKept (s : jsstring) : headKept (trimStart s).
Proof.
  induction s as [|c r IH]; simpl; [exact I|].
  destruct (isWhiteSpace c) eqn:Hc; [exact IH | simpl; exact Hc].
Qed.

Lemma trimStart_fixed (s : jsstring) : headKept s -> trimStart s = s.
Proof.
  destruct s as [|c r]; simpl; [reflexivity|].
  intros Hc; rewrite Hc; reflexivity.
Qed.

Lemma trimStart_snoc (s : jsstring) (c : N) :
  isWhiteSpace c = false -> trimStart (s ++ [c]) = trimStart s ++ [c].
Proof.
  intros Hc; induction s as [|x r IH]; simpl.
  - rewrite Hc; reflexivity.
  - destruct (isWhiteSpace x); [exact IH | reflexivity].
Qed.

Lemma trimEnd_headKept (s : jsstring) : headKept s -> headKept (trimEnd s).
Proof.
  unfold trimEnd; destruct s as [|c r]; simpl; [exact (fun H => H)|].
  intros Hc; rewrite (trimStart_snoc _ _ Hc), rev_app_distr; simpl; exact Hc.
Qed.

Lemma trimEnd_idempotent (s : jsstring) : trimEnd (trimEnd s) = trimEnd s.
Proof.
  unfold trimEnd; rewrite rev_involutive.
  rewrite (trimStart_fixed _ (trimStart_headKept (rev s))); reflexivity.
Qed.

Lemma trim_idempotent (s : jsstring) : trim (trim s) = trim s.
Proof.
  unfold trim.
  rewrite (trimStart_fixed _ (trimEnd_headKept _ (trimStart_headKept s))).
  apply trimEnd_idempotent.
Qed.

Lemma truthy_nonempty (s : jsstring) : truthy s = true <-> s <> [].
Proof.
  destruct s; simpl; split; intros H; try congruence; reflexivity.
Qed.

Lemma truthy_empty (s : jsstring) : truthy s = false <-> s = [].
Proof.
  destruct s; simpl; split; intros H; try congruence; reflexivity.
Qed.

Lemma eqb_refl (s : jsstring) : eqb s s = true.
Proof.
  induction s as [|c r IH]; simpl; [reflexivity|].
  rewrite N.eqb_refl; exact IH.
Qed.

Lemma eqb_eq (a b : jsstring) : eqb a b = true <-> a = b.
Proof.
  split; [|intros ->; apply eqb_refl].
  revert b; induction a as [|x a IH]; destruct b as [|y b]; simpl;
    try congruence.
  intros H; apply andb_true_iff in H; destruct H as [Hx Hr].
  apply N.eqb_eq in Hx; rewrite (IH _ Hr), Hx; reflexivity.
Qed.

Lemma same_eq (a b : option jsstring) : same a b = true <-> a = b.
Proof.
  destruct a as [x|], b as [y|]; simpl; try (split; congruence).
  rewrite eqb_eq; split; congruence.
Qed.

End Trim.

(** ** Input capture *)

Section InputCapture.

Import MessageInput.

Lemma mayEmit_true (disabled : bool) (st : State) :
  mayEmit disabled st = true <->
  trim (message st) <> [] /\ isComposing st = false /\ disabled = false.
Proof.
  unfold mayEmit; rewrite !andb_true_iff, !negb_true_iff, truthy_nonempty.
  tauto.
Qed.

Lemma mayEmit_false (disabled : bool) (st : State) :
  mayEmit disabled st = false <->
  trim (message st) = [] \/ isComposing st = true \/ disabled = true.
Proof.
  unfold mayEmit; rewrite !andb_false_iff, !negb_false_iff, truthy_empty.
  tauto.
Qed.

Lemma handleKeyDown_enter (disabled : bool) (st : State) :
  handleKeyDown disabled st enterKey
  = PreventDefault :: handleSubmit disabled st.
Proof. reflexivity. Qed.

Lemma handleSubmit_emits (disabled : bool) (st : State) :
  mayEmit disabled st = true ->
  handleSubmit disabled st
  = [PreventDefault; OnSendMessage (trim (message st)); SetMessage []].
Proof.
  unfold handleSubmit, mayEmit; intros ->; reflexivity.
Qed.

Lemma handleSubmit_silent (disabled : bool) (st : State) :
  mayEmit disabled st = false ->
  handleSubmit disabled st = [PreventDefault].
Proof.
  unfold handleSubmit, mayEmit; intros ->; reflexivity.
Qed.

(** C6. With a draft that is not blank, no composition open and the
    component enabled, Enter without Shift, and likewise the send button,
    hands the trimmed draft to [onSendMessage] exactly once and clears the
    draft; when one of the three conditions fails the trigger hands over
    nothing, calls no setter and leaves the state as it was. *)
Theorem C6_submit_trigger (disabled : bool) (st : State)
  (effs : list Effect) :
  effs = handleKeyDown disabled st enterKey
  \/ effs = handleSubmit disabled st ->
  (trim (message st) <> [] -> isComposing st = false -> disabled = false ->
     emissions effs = [trim (message st)]
     /\ message (run effs st) = [])
  /\ (trim (message st) = [] \/ isComposing st = true \/ disabled = true ->
     emissions effs = []
     /\ setsMessage effs = false
     /\ run effs st = st).
Proof.
  intros Heffs; split.
  - intros Ht Hc Hd.
    assert (Hg : mayEmit disabled st = true)
      by (apply mayEmit_true; auto).
    destruct Heffs as [-> | ->];
      rewrite ?handleKeyDown_enter, (handleSubmit_emits _ _ Hg);
      split; reflexivity.
  - intros Hfail; apply mayEmit_false in Hfail.
    destruct Heffs as [-> | ->];
      rewrite ?handleKeyDown_enter, (handleSubmit_silent _ _ Hfail);
      repeat split; reflexivity.
Qed.

(** C6 on the draft [" hi "], enabled, and on the same draft, disabled. *)
Lemma C6_submit_trigger_witness :
  (emissions (handleKeyDown false (mkState (lit " hi ") false) enterKey)
   = [lit "hi"]
   /\ message (run (handleKeyDown false (mkState (lit " hi ") false) enterKey)
                   (mkState (lit " hi ") false)) = [])
  /\ (emissions (handleSubmit true (mkState (lit " hi ") false)) = []
      /\ setsMessage (handleSubmit true (mkState (lit " hi ") false)) = false
      /\ run (handleSubmit true (mkState (lit " hi ") false))
             (mkState (lit " hi ") false) = mkState (lit " hi ") false).
Proof.
  split.
  - apply (proj1 (C6_submit_trigger false (mkState (lit " hi ") false) _
                    (or_introl eq_refl))).
    + vm_compute; discriminate.
    + reflexivity.
    + reflexivity.
  - apply (proj2 (C6_submit_trigger true (mkState (lit " hi ") false) _
                    (or_intror eq_refl))).
    right; right; reflexivity.
Defined.

(** C7. An edit whose text has at most 1000 code units becomes the draft
    as it is; a longer one calls no setter and leaves the state as it
    was. *)
Theorem C7_length_cap (st : State) (value : jsstring) :
  (length value <= 1000 ->
     message (run (handleChange value) st) = value
     /\ isComposing (run (handleChange value) st) = isComposing st)
  /\ (1000 < length value ->
     handleChange value = [] /\ run (handleChange value) st = st).
Proof.
  unfold handleChange, maxLength; split; intros H.
  - apply Nat.leb_le in H; rewrite H; split; reflexivity.
  - apply Nat.leb_gt in H; rewrite H; split; reflexivity.
Qed.

(** C7 on a three-unit edit and on an edit of 1001 units. *)
Lemma C7_length_cap_witness :
  message (run (handleChange (lit "abc")) (mkState (lit "ab") false))
  = lit "abc"
  /\ run (handleChange (repeat 97%N 1001)) (mkState (lit "ab") false)
     = mkState (lit "ab") false.
Proof.
  split.
  - apply (proj1 (C7_length_cap (mkState (lit "ab") false) (lit "abc"))).
    vm_compute; lia.
  - apply (proj2 (C7_length_cap (mkState (lit "ab") false)
                    (repeat 97%N 1001))).
    rewrite repeat_length; lia.
Defined.

End InputCapture.

(** ** The conversation controller in the mounted application *)

Section Controller.

Import System.

Lemma world_eta (w : World) :
  mkWorld (app w) (chat w) (input w) (pending w) = w.
Proof. destruct w; reflexivity. Qed.

Lemma commit_same (before after : World) :
  activeId after = activeId before -> commit before after = after.
Proof.
  intros H; unfold commit; rewrite H.
  rewrite (proj2 (same_eq _ _) eq_refl); reflexivity.
Qed.

(** What the render after an event can change: the timeline, emptied for a
    falsy identifier, or the requests in flight, one fetch more. *)
Lemma commit_cases (before after : World) :
  commit before after = after
  \/ (same (activeId before) (activeId after) = false
      /\ truthy_opt (activeId after) = false
      /\ commit before after
         = mkWorld (app after)
             (ChatInterface.mkState [] (ChatInterface.loading (chat after)))
             (input after) (pending after))
  \/ (same (activeId before) (activeId after) = false
      /\ exists c, activeId after = Some c /\ truthy c = true
      /\ commit before after
         = mkWorld (app after) (chat after) (input after)
             (pending after ++ [PendingGet c])).
Proof.
  unfold commit.
  destruct (same (activeId before) (activeId after)) eqn:Hs; [now left|].
  right.
  unfold ChatInterface.conversationIdEffect, App.chatProps, activeId in *.
  simpl.
  destruct (App.currentConversationId (app after)) as [c|] eqn:Hc.
  - destruct (truthy c) eqn:Ht.
    + right; split; [reflexivity|]; exists c; repeat split; assumption.
    + left; repeat split; simpl; assumption.
  - left; repeat split.
Qed.

Lemma outstandingSends_app (l1 l2 : list Pending) :
  outstandingSends (l1 ++ l2) = outstandingSends l1 + outstandingSends l2.
Proof.
  induction l1 as [|[c|p b] r IH]; simpl; rewrite ?IH; reflexivity.
Qed.

Lemma outstandingSends_settle_post (l : list Pending) (i : nat)
  (p : ChatInterface.Props) (b : ChatRequest.t) :
  nth_error l i = Some (PendingPost p b) ->
  outstandingSends l = S (outstandingSends (removeNth i l)).
Proof.
  revert i; induction l as [|x r IH]; intros [|j] H; simpl in *;
    try discriminate.
  - injection H as ->; reflexivity.
  - destruct x; rewrite (IH _ H); reflexivity.
Qed.

Lemma outstandingSends_settle_get (l : list Pending) (i : nat)
  (c : jsstring) :
  nth_error l i = Some (PendingGet c) ->
  outstandingSends (removeNth i l) = outstandingSends l.
Proof.
  revert i; induction l as [|x r IH]; intros [|j] H; simpl in *;
    try discriminate.
  - injection H as ->; reflexivity.
  - destruct x; rewrite (IH _ H); reflexivity.
Qed.

Lemma commit_loadingTracksSend (before after : World) :
  loadingTracksSend after -> loadingTracksSend (commit before after).
Proof.
  intros H.
  destruct (commit_cases before after)
    as [-> | [(_ & _ & ->) | (_ & c & _ & _ & ->)]];
    unfold loadingTracksSend in *; simpl.
  - exact H.
  - exact H.
  - rewrite outstandingSends_app; simpl; rewrite Nat.add_0_r; exact H.
Qed.

(** A trigger under a passing guard: the whole of the step. *)
Lemma step_trigger_emits (now : jsstring) (ev : Event) (w : World) :
  isTrigger ev ->
  MessageInput.mayEmit (composerDisabled w) (input w) = true ->
  step now ev w
  = let p := App.chatProps (app w) in
    let text := trim (MessageInput.message (input w)) in
    mkWorld (app w)
      (ChatInterface.mkState
         (timeline w ++ [ChatInterface.userMessage p now text]) true)
      (MessageInput.mkState [] (MessageInput.isComposing (input w)))
      (pending w ++
       [PendingPost p
          (ChatRequest.mk text (ChatInterface.userId p)
             (ChatInterface.conversationId p))]).
Proof.
  intros Hev Hg.
  assert (Ht : truthy (trim (trim (MessageInput.message (input w)))) = true).
  { rewrite trim_idempotent.
    unfold MessageInput.mayEmit in Hg.
    apply andb_true_iff in Hg; destruct Hg as [Hg _].
    apply andb_true_iff in Hg; destruct Hg as [Hg _]; exact Hg. }
  unfold composerDisabled in Hg.
  assert (Hh : handle now ev w
    = mkWorld (app w)
      (ChatInterface.mkState
         (timeline w ++
          [ChatInterface.userMessage (App.chatProps (app w)) now
             (trim (MessageInput.message (input w)))]) true)
      (MessageInput.mkState [] (MessageInput.isComposing (input w)))
      (pending w ++
       [PendingPost (App.chatProps (app w))
          (ChatRequest.mk (trim (MessageInput.message (input w)))
             (ChatInterface.userId (App.chatProps (app w)))
             (ChatInterface.conversationId (App.chatProps (app w))))])).
  { destruct Hev as [-> | [caret ->]]; unfold handle;
      rewrite ?handleKeyDown_enter, (handleSubmit_emits _ _ Hg);
      unfold inputCalls; simpl; unfold ChatInterface.sendMessage;
      rewrite Ht; reflexivity. }
  unfold step; rewrite Hh; apply commit_same; reflexivity.
Qed.

(** A trigger under a failing guard: nothing at all. *)
Lemma step_trigger_silent (now : jsstring) (ev : Event) (w : World) :
  isTrigger ev ->
  MessageInput.mayEmit (composerDisabled w) (input w) = false ->
  step now ev w = w.
Proof.
  intros Hev Hg; unfold composerDisabled in Hg.
  assert (Hh : handle now ev w = w).
  { destruct Hev as [-> | [caret ->]]; unfold handle;
      rewrite ?handleKeyDown_enter, (handleSubmit_silent _ _ Hg);
      unfold inputCalls; simpl; apply world_eta. }
  unfold step; rewrite Hh; apply commit_same; reflexivity.
Qed.

End Controller.

(** ** One send at a time *)

Section OneSend.

Import System.

(** Handlers of the composer that hand nothing to [onSendMessage] touch
    the composer alone. *)
Lemma inputCalls_no_emission (now : jsstring) (p : ChatInterface.Props)
  (effs : list MessageInput.Effect) (w : World) :
  MessageInput.emissions effs = [] ->
  inputCalls now p effs w
  = mkWorld (app w) (chat w) (MessageInput.run effs (input w)) (pending w).
Proof.
  unfold inputCalls, MessageInput.run; revert w.
  induction effs as [|e r IH]; intros w H; simpl.
  - symmetry; apply world_eta.
  - destruct e; simpl in H; try discriminate; rewrite (IH _ H); reflexivity.
Qed.

Lemma handleChange_no_emission (value : jsstring) :
  MessageInput.emissions (MessageInput.handleChange value) = [].
Proof.
  unfold MessageInput.handleChange.
  destruct (length value <=? MessageInput.maxLength); reflexivity.
Qed.

Lemma keyEvent_enter (e : MessageInput.KeyEvent) :
  eqb (MessageInput.key e) MessageInput.Enter
  && negb (MessageInput.shiftKey e) = true ->
  e = MessageInput.enterKey.
Proof.
  destruct e as [k s]; simpl; intros H.
  apply andb_true_iff in H; destruct H as [Hk Hs].
  apply eqb_eq in Hk; apply negb_true_iff in Hs; subst; reflexivity.
Qed.

(** No handler separates the flag from the sends in flight: a send starts
    only with the flag down and raises it, a settled send lowers it, and
    no other handler touches either. *)
Lemma handle_loadingTracksSend (now : jsstring) (ev : Event) (w : World) :
  loadingTracksSend w -> loadingTracksSend (handle now ev w).
Proof.
  intros Hw; unfold loadingTracksSend in *.
  destruct ev as [value | e caret | | | | id | i o].
  - unfold handle;
      rewrite (inputCalls_no_emission _ _ _ _ (handleChange_no_emission _));
      exact Hw.
  - destruct (eqb (MessageInput.key e) MessageInput.Enter
              && negb (MessageInput.shiftKey e)) eqn:He.
    + rewrite (keyEvent_enter _ He).
      destruct (MessageInput.mayEmit (composerDisabled w) (input w)) eqn:Hg.
      * unfold composerDisabled in Hg; unfold handle.
        rewrite handleKeyDown_enter, (handleSubmit_emits _ _ Hg).
        unfold inputCalls; simpl.
        unfold MessageInput.mayEmit in Hg.
        apply andb_true_iff in Hg; destruct Hg as [Hg _].
        apply andb_true_iff in Hg; destruct Hg as [_ Hd].
        apply negb_true_iff in Hd.
        unfold ChatInterface.composerDisabled in Hd.
        destruct (truthy_opt _); [|discriminate].
        rewrite Hd in Hw.
        unfold ChatInterface.sendMessage.
        destruct (negb (truthy (trim (trim _)))); simpl.
        -- rewrite Hd; exact Hw.
        -- rewrite outstandingSends_app, Hw; reflexivity.
      * unfold composerDisabled in Hg; unfold handle.
        rewrite handleKeyDown_enter, (handleSubmit_silent _ _ Hg).
        exact Hw.
    + unfold handle, MessageInput.handleKeyDown; rewrite He; simpl.
      destruct (eqb (MessageInput.key e) MessageInput.Enter); simpl;
        [|exact Hw].
      rewrite (inputCalls_no_emission _ _ _ _ (handleChange_no_emission _));
        exact Hw.
  - destruct (MessageInput.mayEmit (composerDisabled w) (input w)) eqn:Hg.
    + unfold composerDisabled in Hg; unfold handle.
      rewrite (handleSubmit_emits _ _ Hg).
      unfold inputCalls; simpl.
      unfold MessageInput.mayEmit in Hg.
      apply andb_true_iff in Hg; destruct Hg as [Hg _].
      apply andb_true_iff in Hg; destruct Hg as [_ Hd].
      apply negb_true_iff in Hd.
      unfold ChatInterface.composerDisabled in Hd.
      destruct (truthy_opt _); [|discriminate].
      rewrite Hd in Hw.
      unfold ChatInterface.sendMessage.
      destruct (negb (truthy (trim (trim _)))); simpl.
      * rewrite Hd; exact Hw.
      * rewrite outstandingSends_app, Hw; reflexivity.
    + unfold composerDisabled in Hg; unfold handle.
      rewrite (handleSubmit_silent _ _ Hg); exact Hw.
  - exact Hw.
  - exact Hw.
  - exact Hw.
  - unfold handle.
    destruct (nth_error (pending w) i) as [[c | p0 body]|] eqn:Hi;
      [| |exact Hw].
    + destruct o as [[[l|]] | data |]; simpl;
        rewrite ?(outstandingSends_settle_get _ _ _ Hi); exact Hw.
    + pose proof (outstandingSends_settle_post _ _ _ _ Hi) as Hn.
      destruct o as [hist | data |]; [exact Hw| |];
        rewrite Hn in Hw;
        (destruct (ChatInterface.loading (chat w)); [|discriminate]);
        injection Hw as Hw; simpl.
      * unfold ChatInterface.sendMessage_resolved, chatCalls.
        rewrite fold_left_app; simpl.
        match goal with
        | |- outstandingSends (pending (fold_left _ ?l _)) = _ =>
            assert (Hl : l = [] \/ exists id,
                      l = [ChatInterface.OnNewConversation id])
        end.
        { destruct (ChatResponse.conversation_id data) as [id|];
            [|now left].
          destruct (negb _ && truthy id); [right; now exists id | now left]. }
        destruct Hl as [-> | [id ->]]; simpl; exact Hw.
      * exact Hw.
Qed.

Lemma step_loadingTracksSend (now : jsstring) (ev : Event) (w : World) :
  loadingTracksSend w -> loadingTracksSend (step now ev w).
Proof.
  intros Hw; unfold step.
  apply commit_loadingTracksSend, handle_loadingTracksSend, Hw.
Qed.

Lemma exec_loadingTracksSend (evs : list (jsstring * Event)) (w : World) :
  loadingTracksSend w -> loadingTracksSend (exec evs w).
Proof.
  unfold exec; revert w; induction evs as [|[now ev] r IH]; intros w Hw;
    simpl; [exact Hw|].
  apply IH, step_loadingTracksSend, Hw.
Qed.

Lemma initial_loadingTracksSend (userId : jsstring) :
  loadingTracksSend (initial userId).
Proof. reflexivity. Qed.

End OneSend.

Section SendProtocol.

Import System.

(** C4. From the first render on, whatever events come in whatever order,
    at most one send is in flight. A trigger that passes the guard appends
    the user's message and raises [loading] in the one step, after which
    the composer is disabled; and with the composer disabled a trigger,
    button or key, hands nothing to [onSendMessage] and changes nothing. *)
Theorem C4_one_outstanding_send :
  (forall (userId : jsstring) (evs : list (jsstring * Event)),
     outstandingSends (pending (exec evs (initial userId))) <= 1)
  /\ (forall (now : jsstring) (ev : Event) (w : World),
        isTrigger ev ->
        MessageInput.mayEmit (composerDisabled w) (input w) = true ->
        timeline (step now ev w)
        = timeline w ++
          [ChatInterface.userMessage (App.chatProps (app w)) now
             (trim (MessageInput.message (input w)))]
        /\ ChatInterface.loading (chat (step now ev w)) = true
        /\ composerDisabled (step now ev w) = true)
  /\ (forall (now : jsstring) (ev : Event) (w : World),
        isTrigger ev -> composerDisabled w = true -> step now ev w = w)
  /\ (forall (st : MessageInput.State) (e : MessageInput.KeyEvent),
        MessageInput.emissions (MessageInput.handleSubmit true st) = []
        /\ MessageInput.emissions (MessageInput.handleKeyDown true st e)
           = []).
Proof.
  repeat apply conj.
  - intros userId evs.
    pose proof (exec_loadingTracksSend evs _
                  (initial_loadingTracksSend userId)) as H.
    unfold loadingTracksSend in H; rewrite H.
    destruct (ChatInterface.loading _); lia.
  - intros now ev w Hev Hg.
    rewrite (step_trigger_emits now ev w Hev Hg); simpl.
    repeat split.
    unfold composerDisabled, ChatInterface.composerDisabled; simpl.
    destruct (truthy_opt _); reflexivity.
  - intros now ev w Hev Hd.
    apply step_trigger_silent; [exact Hev|].
    apply mayEmit_false; right; right; exact Hd.
  - intros st e; split.
    + unfold MessageInput.handleSubmit.
      rewrite andb_false_r; reflexivity.
    + unfold MessageInput.handleKeyDown, MessageInput.handleSubmit.
      rewrite andb_false_r.
      destruct (eqb _ _ && negb _); reflexivity.
Qed.

(** C4 on the sample: the first click sends and disables the composer, a
    second click and an Enter key right after it change nothing. *)
Lemma C4_one_outstanding_send_witness :
  composerDisabled (step Sample.t1 Click Sample.ready) = true
  /\ step Sample.t2 Click (step Sample.t1 Click Sample.ready)
     = step Sample.t1 Click Sample.ready
  /\ step Sample.t2 (KeyDown MessageInput.enterKey 0)
          (step Sample.t1 Click Sample.ready)
     = step Sample.t1 Click Sample.ready.
Proof.
  destruct C4_one_outstanding_send as (_ & Hsend & Hquiet & _).
  repeat apply conj.
  - apply (Hsend Sample.t1 Click Sample.ready).
    + left; reflexivity.
    + vm_compute; reflexivity.
  - apply (Hquiet Sample.t2 Click).
    + left; reflexivity.
    + vm_compute; reflexivity.
  - apply (Hquiet Sample.t2 (KeyDown MessageInput.enterKey 0)).
    + right; exists 0; reflexivity.
    + vm_compute; reflexivity.
Defined.

(** C3. In [sendMessage] a request is dispatched only after the user's
    message, the one built from the text, the clock, the user and the
    conversation and carrying no error flag, has been appended: the append
    and the raising of [loading] are all that precedes the request and
    nothing follows it before the [await]. In the mounted application the
    step of a passing trigger ends with that message last in the timeline
    and the request in flight, not yet settled. *)
Theorem C3_optimistic_append_first :
  (forall (p : ChatInterface.Props) (now text : jsstring)
          (pre post : list ChatInterface.Effect) (body : ChatRequest.t),
     ChatInterface.sendMessage p now text
     = pre ++ ChatInterface.AxiosPost body :: post ->
     pre = [ChatInterface.AppendMessage
              (ChatInterface.userMessage p now text);
            ChatInterface.SetLoading true]
     /\ post = []
     /\ ChatRequest.message body = text
     /\ Msg.message (ChatInterface.userMessage p now text) = text
     /\ Msg.user_id (ChatInterface.userMessage p now text)
        = ChatInterface.userId p
     /\ Msg.isError (ChatInterface.userMessage p now text) = false)
  /\ (forall (now : jsstring) (ev : Event) (w : World),
        isTrigger ev ->
        MessageInput.mayEmit (composerDisabled w) (input w) = true ->
        exists (m : Msg.t) (body : ChatRequest.t),
          m = ChatInterface.userMessage (App.chatProps (app w)) now
                (trim (MessageInput.message (input w)))
          /\ timeline (step now ev w) = timeline w ++ [m]
          /\ pending (step now ev w)
             = pending w ++ [PendingPost (App.chatProps (app w)) body]
          /\ ChatRequest.message body = Msg.message m).
Proof.
  split.
  - intros p now text pre post body H.
    unfold ChatInterface.sendMessage in H.
    destruct (negb (truthy (trim text))).
    + destruct pre; discriminate.
    + destruct pre as [|a [|b [|c pre]]]; simpl in H; try discriminate.
      * injection H as Ha Hl Hb Hp; subst; repeat split.
      * destruct pre; discriminate.
  - intros now ev w Hev Hg.
    rewrite (step_trigger_emits now ev w Hev Hg); simpl.
    eexists; eexists; repeat split.
Qed.

(** C3 on the sample: the question is in the timeline, after the earlier
    turn, while its request is still in flight. *)
Lemma C3_optimistic_append_first_witness :
  (exists (m : Msg.t) (body : ChatRequest.t),
     m = ChatInterface.userMessage (App.chatProps (app Sample.ready))
           Sample.t1 (trim (MessageInput.message (input Sample.ready)))
     /\ timeline (step Sample.t1 Click Sample.ready)
        = timeline Sample.ready ++ [m]
     /\ pending (step Sample.t1 Click Sample.ready)
        = pending Sample.ready
          ++ [PendingPost (App.chatProps (app Sample.ready)) body]
     /\ ChatRequest.message body = Msg.message m)
  /\ Msg.isError
       (ChatInterface.userMessage
          (ChatInterface.mkProps (Some Sample.convA) Sample.user)
          Sample.t1 Sample.question)
     = false.
Proof.
  split.
  - apply (proj2 C3_optimistic_append_first Sample.t1 Click Sample.ready).
    + left; reflexivity.
    + vm_compute; reflexivity.
  - apply (proj1 C3_optimistic_append_first
             (ChatInterface.mkProps (Some Sample.convA) Sample.user)
             Sample.t1 Sample.question
             [ChatInterface.AppendMessage
                (ChatInterface.userMessage
                   (ChatInterface.mkProps (Some Sample.convA) Sample.user)
                   Sample.t1 Sample.question);
              ChatInterface.SetLoading true]
             []
             (ChatRequest.mk Sample.question Sample.user
                (Some Sample.convA))).
    vm_compute; reflexivity.
Defined.

End SendProtocol.

(** ** Settlement of requests *)

Section Settlement.

Import System.

Lemma nth_error_last (l : list Pending) (x : Pending) :
  nth_error (l ++ [x]) (length l) = Some x.
Proof. induction l as [|y r IH]; simpl; [reflexivity | exact IH]. Qed.

Lemma removeNth_last (l : list Pending) (x : Pending) :
  removeNth (length l) (l ++ [x]) = l.
Proof.
  induction l as [|y r IH]; simpl; [reflexivity | rewrite IH; reflexivity].
Qed.

Lemma step_settle_send_failure (now : jsstring) (w : World) (i : nat)
  (p : ChatInterface.Props) (body : ChatRequest.t) :
  nth_error (pending w) i = Some (PendingPost p body) ->
  step now (Settle i Failure) w
  = mkWorld (app w)
      (ChatInterface.mkState
         (timeline w ++ [ChatInterface.errorMessage p now]) false)
      (input w) (removeNth i (pending w)).
Proof.
  intros Hi; unfold step, handle; rewrite Hi; simpl.
  apply commit_same; reflexivity.
Qed.

Lemma step_settle_send_success (now : jsstring) (w : World) (i : nat)
  (p : ChatInterface.Props) (body : ChatRequest.t)
  (data : ChatResponse.t) :
  nth_error (pending w) i = Some (PendingPost p body) ->
  truthy_opt (ChatInterface.conversationId p) = true ->
  step now (Settle i (Chat data)) w
  = mkWorld (app w)
      (ChatInterface.mkState
         (timeline w ++ [ChatInterface.botMessage p data]) false)
      (input w) (removeNth i (pending w)).
Proof.
  intros Hi Hp; unfold step, handle; rewrite Hi.
  unfold ChatInterface.sendMessage_resolved; rewrite Hp; simpl.
  destruct (ChatResponse.conversation_id data); simpl;
    apply commit_same; reflexivity.
Qed.

Lemma step_settle_fetch (now : jsstring) (w : World) (i : nat)
  (c : jsstring) (o : Outcome) :
  nth_error (pending w) i = Some (PendingGet c) ->
  step now (Settle i o) w
  = match o with
    | History data =>
        mkWorld (app w)
          (ChatInterface.mkState
             (match HistoryResponse.messages data with
              | Some l => l
              | None => []
              end)
             (ChatInterface.loading (chat w)))
          (input w) (removeNth i (pending w))
    | Failure =>
        mkWorld (app w)
          (ChatInterface.mkState [] (ChatInterface.loading (chat w)))
          (input w) (removeNth i (pending w))
    | Chat _ => w
    end.
Proof.
  intros Hi; unfold step, handle; rewrite Hi.
  destruct o; simpl; apply commit_same; reflexivity.
Qed.

(** C5. When a send fails, whatever else has happened since it was
    dispatched, the step that settles it appends one message to the
    timeline as it stands, the one flagged [isError] with the fixed text,
    drops nothing and rewrites nothing, lowers [loading], and the composer
    is disabled only if no conversation is active. A passing trigger
    followed by the failure of its request leaves the user's message and
    then the error message at the end of the timeline, the composer
    enabled and the draft empty. *)
Theorem C5_send_failure :
  (forall (now : jsstring) (w : World) (i : nat)
          (p : ChatInterface.Props) (body : ChatRequest.t),
     nth_error (pending w) i = Some (PendingPost p body) ->
     timeline (step now (Settle i Failure) w)
     = timeline w ++ [ChatInterface.errorMessage p now]
     /\ Msg.isError (ChatInterface.errorMessage p now) = true
     /\ Msg.message (ChatInterface.errorMessage p now)
        = ChatInterface.errorText
     /\ ChatInterface.loading (chat (step now (Settle i Failure) w)) = false
     /\ composerDisabled (step now (Settle i Failure) w)
        = negb (truthy_opt (activeId w)))
  /\ (forall (now later : jsstring) (ev : Event) (w : World),
        isTrigger ev ->
        MessageInput.mayEmit (composerDisabled w) (input w) = true ->
        timeline
          (step later (Settle (length (pending w)) Failure) (step now ev w))
        = timeline w ++
          [ChatInterface.userMessage (App.chatProps (app w)) now
             (trim (MessageInput.message (input w)));
           ChatInterface.errorMessage (App.chatProps (app w)) later]
        /\ composerDisabled
             (step later (Settle (length (pending w)) Failure)
                (step now ev w))
           = false
        /\ pending
             (step later (Settle (length (pending w)) Failure)
                (step now ev w))
           = pending w).
Proof.
  split.
  - intros now w i p body Hi.
    rewrite (step_settle_send_failure now w i p body Hi); simpl.
    repeat split.
  - intros now later ev w Hev Hg.
    rewrite (step_trigger_emits now ev w Hev Hg); cbv zeta.
    erewrite step_settle_send_failure by (simpl; apply nth_error_last).
    unfold timeline; simpl; rewrite <- app_assoc, removeNth_last; simpl.
    repeat split.
    apply mayEmit_true in Hg; destruct Hg as (_ & _ & Hd).
    unfold composerDisabled, ChatInterface.composerDisabled in *; simpl.
    destruct (truthy_opt _); [reflexivity | discriminate].
Qed.

(** C5 on the sample: the question is sent and its request fails. *)
Lemma C5_send_failure_witness :
  timeline (step Sample.t2 (Settle 0 Failure)
              (step Sample.t1 Click Sample.ready))
  = [Sample.earlier;
     ChatInterface.userMessage (App.chatProps (app Sample.ready))
       Sample.t1 Sample.question;
     ChatInterface.errorMessage (App.chatProps (app Sample.ready))
       Sample.t2]
  /\ composerDisabled (step Sample.t2 (Settle 0 Failure)
                         (step Sample.t1 Click Sample.ready)) = false
  /\ pending (step Sample.t2 (Settle 0 Failure)
                (step Sample.t1 Click Sample.ready)) = []
  /\ ChatInterface.loading
       (chat (step Sample.t2 (Settle 0 Failure)
                (step Sample.t1 Click Sample.ready)))
     = false.
Proof.
  destruct C5_send_failure as (Hfail & Hseq).
  destruct (Hseq Sample.t1 Sample.t2 Click Sample.ready)
    as (Ht & Hd & Hp).
  - left; reflexivity.
  - vm_compute; reflexivity.
  - repeat apply conj; [exact Ht | exact Hd | exact Hp |].
    apply (Hfail Sample.t2 (step Sample.t1 Click Sample.ready) 0
             (ChatInterface.mkProps (Some Sample.convA) Sample.user)
             (ChatRequest.mk Sample.question Sample.user
                (Some Sample.convA))).
    vm_compute; reflexivity.
Defined.

(** C8. When the history fetch settles: on success the timeline is the
    sequence of the response, entry for entry in its order (and empty when
    the response has no [messages]); on failure it is empty, so holds no
    error message, and the handler of the failure appends nothing. *)
Theorem C8_history_settles (now : jsstring) (w : World) (i : nat)
  (c : jsstring) :
  nth_error (pending w) i = Some (PendingGet c) ->
  (forall l : list Msg.t,
     timeline (step now (Settle i (History (HistoryResponse.mk (Some l)))) w)
     = l)
  /\ timeline (step now (Settle i (History (HistoryResponse.mk None))) w) = []
  /\ timeline (step now (Settle i Failure) w) = []
  /\ (forall m : Msg.t,
        ~ In (ChatInterface.AppendMessage m)
             ChatInterface.fetchConversationHistory_rejected)
  /\ ChatInterface.loading (chat (step now (Settle i Failure) w))
     = ChatInterface.loading (chat w).
Proof.
  intros Hi; repeat apply conj; try intros l;
    rewrite ?(step_settle_fetch now w i c _ Hi); try reflexivity.
  simpl; intros [H | [H | []]]; discriminate.
Qed.

(** C8 on the sample: conversation A is selected and its fetch settles. *)
Lemma C8_history_settles_witness :
  timeline (step Sample.t1
              (Settle 0 (History (HistoryResponse.mk (Some [Sample.earlier]))))
              (step Sample.t0 (SelectConversation Sample.convA)
                 (initial Sample.user)))
  = [Sample.earlier]
  /\ timeline (step Sample.t1 (Settle 0 Failure)
                 (step Sample.t0 (SelectConversation Sample.convA)
                    (initial Sample.user)))
     = [].
Proof.
  destruct (C8_history_settles Sample.t1
              (step Sample.t0 (SelectConversation Sample.convA)
                 (initial Sample.user)) 0 Sample.convA)
    as (Hok & _ & Hfail & _).
  - vm_compute; reflexivity.
  - split; [apply Hok | exact Hfail].
Defined.

End Settlement.

(** ** The active conversation identifier *)

Section ActiveIdentifier.

Import System.

Lemma step_select (now : jsstring) (w : World) (id : jsstring) :
  same (activeId w) (Some id) = false ->
  step now (SelectConversation id) w
  = if truthy id
    then mkWorld (App.mkState (Some id) (App.userId (app w)))
           (chat w) (input w) (pending w ++ [PendingGet id])
    else mkWorld (App.mkState (Some id) (App.userId (app w)))
           (ChatInterface.mkState [] (ChatInterface.loading (chat w)))
           (input w) (pending w).
Proof.
  intros Hs; unfold step, handle, commit; simpl.
  unfold activeId in *; simpl; rewrite Hs.
  unfold chatCalls, ChatInterface.conversationIdEffect; simpl.
  destruct (truthy id); reflexivity.
Qed.

(** C2 as stated fails on the sample. The question is sent in
    conversation A and, its request still in flight, conversation B is
    selected: the timeline of A stays on screen. The history of B arrives,
    empty; the reply to the question arrives after it and is appended to
    the timeline of B, with the identifier of A in it. *)
Lemma C2_counterexample :
  let sent := step Sample.t1 Click Sample.ready in
  let switched := step Sample.t1 (SelectConversation Sample.convB) sent in
  let loaded :=
    step Sample.t2 (Settle 1 (History (HistoryResponse.mk (Some []))))
         switched in
  let late := step Sample.t2 (Settle 0 (Chat Sample.reply)) loaded in
  activeId sent = Some Sample.convA
  /\ activeId switched = Some Sample.convB
  /\ timeline switched <> []
  /\ timeline loaded = []
  /\ activeId late = Some Sample.convB
  /\ timeline late
     = [ChatInterface.botMessage
          (ChatInterface.mkProps (Some Sample.convA) Sample.user)
          Sample.reply]
  /\ Msg.conversation_id
       (ChatInterface.botMessage
          (ChatInterface.mkProps (Some Sample.convA) Sample.user)
          Sample.reply)
     = Some Sample.convA.
Proof.
  vm_compute; repeat split; discriminate.
Qed.

(** C2, amended. Selecting an identifier that is not the active one and is
    not the empty string dispatches one request, the history fetch for that
    identifier, and leaves the timeline as it is; the timeline is replaced
    when a history fetch settles. Selecting the empty string empties the
    timeline at once and dispatches nothing, which is also all the effect
    does for [null]. A send dispatched under an identifier settles into
    the timeline of the moment, whichever conversation is active by then:
    its reply is appended. *)
Theorem C2_switch_conversation :
  (forall (now : jsstring) (w : World) (id : jsstring),
     same (activeId w) (Some id) = false -> truthy id = true ->
     activeId (step now (SelectConversation id) w) = Some id
     /\ timeline (step now (SelectConversation id) w) = timeline w
     /\ pending (step now (SelectConversation id) w)
        = pending w ++ [PendingGet id])
  /\ (forall (now : jsstring) (w : World) (i : nat) (c : jsstring)
             (l : list Msg.t),
        nth_error (pending w) i = Some (PendingGet c) ->
        timeline
          (step now (Settle i (History (HistoryResponse.mk (Some l)))) w)
        = l
        /\ timeline (step now (Settle i Failure) w) = [])
  /\ (forall (now : jsstring) (w : World) (id : jsstring),
        same (activeId w) (Some id) = false -> truthy id = false ->
        timeline (step now (SelectConversation id) w) = []
        /\ pending (step now (SelectConversation id) w) = pending w)
  /\ (forall userId : jsstring,
        ChatInterface.conversationIdEffect
          (ChatInterface.mkProps None userId)
        = [ChatInterface.SetMessages []])
  /\ (forall (now : jsstring) (w : World) (i : nat)
             (p : ChatInterface.Props) (body : ChatRequest.t)
             (data : ChatResponse.t),
        nth_error (pending w) i = Some (PendingPost p body) ->
        truthy_opt (ChatInterface.conversationId p) = true ->
        timeline (step now (Settle i (Chat data)) w)
        = timeline w ++ [ChatInterface.botMessage p data]).
Proof.
  repeat apply conj.
  - intros now w id Hs Ht; rewrite (step_select now w id Hs), Ht.
    repeat split.
  - intros now w i c l Hi.
    rewrite !(step_settle_fetch now w i c _ Hi); split; reflexivity.
  - intros now w id Hs Ht; rewrite (step_select now w id Hs), Ht.
    repeat split.
  - reflexivity.
  - intros now w i p body data Hi Hp.
    rewrite (step_settle_send_success now w i p body data Hi Hp).
    reflexivity.
Qed.

(** C2, amended, on the sample: conversation B is selected while the
    question is in flight, and the reply arrives afterwards. *)
Lemma C2_switch_conversation_witness :
  (timeline (step Sample.t1 (SelectConversation Sample.convB)
               (step Sample.t1 Click Sample.ready))
   = timeline (step Sample.t1 Click Sample.ready)
   /\ pending (step Sample.t1 (SelectConversation Sample.convB)
                 (step Sample.t1 Click Sample.ready))
      = pending (step Sample.t1 Click Sample.ready)
        ++ [PendingGet Sample.convB])
  /\ timeline (step Sample.t2 (Settle 0 (Chat Sample.reply))
                 (step Sample.t1 (SelectConversation Sample.convB)
                    (step Sample.t1 Click Sample.ready)))
     = timeline (step Sample.t1 (SelectConversation Sample.convB)
                   (step Sample.t1 Click Sample.ready))
       ++ [ChatInterface.botMessage
             (ChatInterface.mkProps (Some Sample.convA) Sample.user)
             Sample.reply].
Proof.
  destruct C2_switch_conversation as (Hsel & _ & _ & _ & Hlate).
  split.
  - apply (Hsel Sample.t1 (step Sample.t1 Click Sample.ready) Sample.convB);
      vm_compute; reflexivity.
  - apply (Hlate Sample.t2
             (step Sample.t1 (SelectConversation Sample.convB)
                (step Sample.t1 Click Sample.ready))
             0 (ChatInterface.mkProps (Some Sample.convA) Sample.user)
             (ChatRequest.mk Sample.question Sample.user
                (Some Sample.convA)) Sample.reply);
      vm_compute; reflexivity.
Defined.

End ActiveIdentifier.

(** ** Enter without Shift in the text area *)

Section EnterKey.

Import System.

Lemma insertLineBreak_length (caret : nat) (s : jsstring) :
  length (insertLineBreak caret s) = S (length s).
Proof.
  unfold insertLineBreak.
  rewrite length_app; simpl; rewrite Nat.add_succ_r, <- length_app.
  rewrite firstn_skipn; reflexivity.
Qed.

(** C10 as stated fails on the sample: with the question in the draft and
    the composer enabled, Enter without Shift submits and the draft, which
    held the question, is empty afterwards. *)
Lemma C10_counterexample :
  MessageInput.message (input Sample.ready) = Sample.question
  /\ composerDisabled Sample.ready = false
  /\ MessageInput.message
       (input (step Sample.t1 (KeyDown MessageInput.enterKey 0) Sample.ready))
     = []
  /\ MessageInput.message
       (input (step Sample.t1 (KeyDown MessageInput.enterKey 0) Sample.ready))
     <> MessageInput.message (input Sample.ready).
Proof.
  vm_compute; repeat split; discriminate.
Qed.

(** C10, amended. Enter without Shift always prevents the default action
    of the key, so the draft never becomes the draft with a line break in
    it. When the guard of the submission fails the step changes nothing,
    the draft included; when it passes the draft is emptied. *)
Theorem C10_enter_without_shift :
  (forall (disabled : bool) (st : MessageInput.State),
     MessageInput.defaultPrevented
       (MessageInput.handleKeyDown disabled st MessageInput.enterKey)
     = true)
  /\ (forall (now : jsstring) (w : World) (caret : nat),
        MessageInput.message
          (input (step now (KeyDown MessageInput.enterKey caret) w))
        <> insertLineBreak caret (MessageInput.message (input w)))
  /\ (forall (now : jsstring) (w : World) (caret : nat),
        trim (MessageInput.message (input w)) = []
        \/ MessageInput.isComposing (input w) = true
        \/ composerDisabled w = true ->
        step now (KeyDown MessageInput.enterKey caret) w = w)
  /\ (forall (now : jsstring) (w : World) (caret : nat),
        trim (MessageInput.message (input w)) <> [] ->
        MessageInput.isComposing (input w) = false ->
        composerDisabled w = false ->
        MessageInput.message
          (input (step now (KeyDown MessageInput.enterKey caret) w))
        = []).
Proof.
  assert (Hev : forall caret, isTrigger (KeyDown MessageInput.enterKey caret))
    by (intros caret; right; exists caret; reflexivity).
  repeat apply conj.
  - intros disabled st; reflexivity.
  - intros now w caret H.
    apply (f_equal (@length N)) in H.
    rewrite insertLineBreak_length in H.
    destruct (MessageInput.mayEmit (composerDisabled w) (input w)) eqn:Hg.
    + rewrite (step_trigger_emits now _ w (Hev caret) Hg) in H.
      discriminate H.
    + rewrite (step_trigger_silent now _ w (Hev caret) Hg) in H.
      lia.
  - intros now w caret Hfail.
    apply step_trigger_silent; [apply Hev | apply mayEmit_false, Hfail].
  - intros now w caret Ht Hc Hd.
    rewrite (step_trigger_emits now _ w (Hev caret)); [reflexivity|].
    apply mayEmit_true; auto.
Qed.

(** C10, amended, on the sample: Enter on the question, then Enter again
    on the emptied draft. *)
Lemma C10_enter_without_shift_witness :
  MessageInput.message
    (input (step Sample.t1 (KeyDown MessageInput.enterKey 3) Sample.ready))
  = []
  /\ step Sample.t2 (KeyDown MessageInput.enterKey 0)
          (step Sample.t1 (KeyDown MessageInput.enterKey 3) Sample.ready)
     = step Sample.t1 (KeyDown MessageInput.enterKey 3) Sample.ready.
Proof.
  destruct C10_enter_without_shift as (_ & _ & Hquiet & Hsend).
  split.
  - apply Hsend; vm_compute; try reflexivity; discriminate.
  - apply Hquiet; left; vm_compute; reflexivity.
Defined.

End EnterKey.

(** ** Rendering of the workflow *)

Section Workflow.

Import ChatInterface.

Lemma mapi_length (from : nat) (w : list Step.t) :
  length (mapi from w) = length w.
Proof.
  revert from; induction w as [|s r IH]; intros from; simpl;
    [reflexivity | rewrite IH; reflexivity].
Qed.

Lemma mapi_nth_error (from i : nat) (w : list Step.t) (step : Step.t) :
  nth_error w i = Some step ->
  nth_error (mapi from w) i = Some (renderStep (from + i) step).
Proof.
  revert from i; induction w as [|s r IH]; intros from [|i] H; simpl in *;
    try discriminate.
  - injection H as ->; rewrite Nat.add_0_r; reflexivity.
  - rewrite (IH (S from) i H), Nat.add_succ_r; reflexivity.
Qed.

(** C9 as stated fails for a step whose [decision] is the empty string:
    the field is there and the step is rendered with its agent alone. *)
Lemma C9_counterexample :
  Step.decision (Step.mk (lit "RouterAgent") (Some [])) = Some []
  /\ renderAgentWorkflow (Some [Step.mk (lit "RouterAgent") (Some [])])
     = Some (mkAgentWorkflow workflowTitle
               [mkWorkflowStep 0 [StepAgent (lit "RouterAgent")]])
  /\ (forall text : jsstring,
        ~ In (StepDecision text)
             (children (renderStep 0 (Step.mk (lit "RouterAgent") (Some []))))).
Proof.
  repeat split.
  intros text [H | []]; discriminate.
Qed.

(** C9, amended. A workflow that is not empty is rendered as one step per
    entry, in the order of the entries, keyed by position; a step shows
    the agent and, when its decision is there and is not the empty string,
    the arrow and the decision after it, and the agent alone otherwise. A
    workflow that is absent or empty renders nothing, in
    [renderAgentWorkflow] and in the timeline. *)
Theorem C9_workflow_rendering :
  (forall (w : list Step.t) (i : nat) (step : Step.t),
     nth_error w i = Some step ->
     exists r : AgentWorkflow,
       renderAgentWorkflow (Some w) = Some r
       /\ length (steps r) = length w
       /\ nth_error (steps r) i = Some (renderStep i step))
  /\ (forall (i : nat) (step : Step.t) (d : jsstring),
        Step.decision step = Some d -> d <> [] ->
        renderStep i step
        = mkWorkflowStep i
            [StepAgent (Step.agent step); StepDecision (arrow ++ d)])
  /\ (forall (i : nat) (step : Step.t),
        Step.decision step = None \/ Step.decision step = Some [] ->
        renderStep i step = mkWorkflowStep i [StepAgent (Step.agent step)])
  /\ renderAgentWorkflow None = None
  /\ renderAgentWorkflow (Some []) = None
  /\ (forall (p : Props) (m : Msg.t),
        Msg.agent_workflow m = None \/ Msg.agent_workflow m = Some [] ->
        snd (renderMessage p m) = None)
  /\ (forall (p : Props) (m : Msg.t) (w : list Step.t),
        Msg.agent_workflow m = Some w ->
        snd (renderMessage p m) = renderAgentWorkflow (Some w)).
Proof.
  repeat apply conj; try reflexivity.
  - intros w i step H.
    destruct w as [|s r]; [destruct i; discriminate|].
    eexists; split; [reflexivity|]; split.
    + exact (mapi_length 0 (s :: r)).
    + exact (mapi_nth_error 0 i (s :: r) step H).
  - intros i step d Hd Hne; unfold renderStep; rewrite Hd.
    destruct d; [congruence | reflexivity].
  - intros i step [Hd | Hd]; unfold renderStep; rewrite Hd; reflexivity.
  - intros p m [H | H]; unfold renderMessage; rewrite H; reflexivity.
  - intros p m w H; unfold renderMessage; rewrite H; reflexivity.
Qed.

(** C9, amended, on the exchange of the documentation, with a second step
    that has no decision. *)
Lemma C9_workflow_rendering_witness :
  renderAgentWorkflow
    (Some [Sample.routed; Step.mk (lit "KnowledgeAgent") None])
  = Some (mkAgentWorkflow workflowTitle
            [mkWorkflowStep 0
               [StepAgent (lit "RouterAgent");
                StepDecision (arrow ++ lit "KnowledgeAgent")];
             mkWorkflowStep 1 [StepAgent (lit "KnowledgeAgent")]]).
Proof.
  destruct C9_workflow_rendering as (_ & Hdec & Hnone & _).
  unfold renderAgentWorkflow, mapi.
  rewrite (Hdec 0 Sample.routed (lit "KnowledgeAgent") eq_refl)
    by (vm_compute; discriminate).
  rewrite (Hnone 1 (Step.mk (lit "KnowledgeAgent") None)
             (or_introl eq_refl)).
  reflexivity.
Defined.

End Workflow.

(** ** Every step of the page, by its shape *)

Section Shapes.

Import System.

Lemma step_identity (now : jsstring) (ev : Event) (w : World) :
  handle now ev w = w -> step now ev w = w.
Proof.
  intros H; unfold step; rewrite H; apply commit_same; reflexivity.
Qed.

Lemma step_input_only (now : jsstring) (ev : Event) (w : World)
  (effs : list MessageInput.Effect) :
  handle now ev w = inputCalls now (App.chatProps (app w)) effs w ->
  MessageInput.emissions effs = [] ->
  step now ev w
  = mkWorld (app w) (chat w) (MessageInput.run effs (input w)) (pending w).
Proof.
  intros Hh He; unfold step; rewrite Hh.
  rewrite (inputCalls_no_emission _ _ _ _ He).
  apply commit_same; reflexivity.
Qed.

Lemma handleChange_bounded (value : jsstring) (st : MessageInput.State) :
  MessageInput.message (MessageInput.run (MessageInput.handleChange value) st)
  = MessageInput.message st
  \/ length (MessageInput.message
               (MessageInput.run (MessageInput.handleChange value) st))
     <= MessageInput.maxLength.
Proof.
  unfold MessageInput.handleChange.
  destruct (length value <=? MessageInput.maxLength) eqn:H; simpl.
  - right; apply Nat.leb_le; exact H.
  - left; reflexivity.
Qed.

Lemma step_select_same (now : jsstring) (w : World) (id : jsstring) :
  same (activeId w) (Some id) = true ->
  step now (SelectConversation id) w = w.
Proof.
  intros Hs; apply step_identity; apply same_eq in Hs.
  destruct w as [[cur uid] c inp pd]; unfold activeId in Hs; simpl in *.
  rewrite Hs; reflexivity.
Qed.

Lemma step_settle_adopting (now : jsstring) (w : World) (i : nat)
  (p : ChatInterface.Props) (body : ChatRequest.t)
  (data : ChatResponse.t) :
  nth_error (pending w) i = Some (PendingPost p body) ->
  truthy_opt (ChatInterface.conversationId p) = false ->
  Page.Shape now w (step now (Settle i (Chat data)) w).
Proof.
  intros Hi Hp.
  assert (Hh : exists a,
             handle now (Settle i (Chat data)) w
             = mkWorld a
                 (ChatInterface.mkState
                    (timeline w ++ [ChatInterface.botMessage p data]) false)
                 (input w) (removeNth i (pending w))
             /\ (a = app w \/ App.currentConversationId a = None)).
  { unfold handle; rewrite Hi.
    unfold ChatInterface.sendMessage_resolved; rewrite Hp; simpl.
    destruct (ChatResponse.conversation_id data) as [id|]; simpl.
    - destruct (truthy id); simpl; eexists; split; try reflexivity;
        [right | left]; reflexivity.
    - eexists; split; [reflexivity | left; reflexivity]. }
  destruct Hh as (a & Hh & Ha).
  unfold step; rewrite Hh.
  match goal with |- Page.Shape _ _ (commit w ?h) =>
    destruct (commit_cases w h)
      as [-> | [(Hs & _ & ->) | (Hs & c & Hc & _ & _)]]
  end.
  - apply (Page.ShapeAdopted now w _ i p body Hi Hp); try reflexivity.
    left; unfold timeline; simpl.
    rewrite length_app, Nat.add_comm; split; [reflexivity|].
    rewrite firstn_app, Nat.sub_diag, firstn_all; simpl.
    apply app_nil_r.
  - apply (Page.ShapeAdopted now w _ i p body Hi Hp); try reflexivity.
    right; split; [exact Hs | reflexivity].
  - exfalso; unfold activeId in *; simpl in *.
    destruct Ha as [-> | Ha].
    + rewrite (proj2 (same_eq _ _) eq_refl) in Hs; discriminate.
    + rewrite Ha in Hc; discriminate.
Qed.

(** One step of the page has one of the six shapes. *)
Lemma step_shape (now : jsstring) (ev : Event) (w : World) :
  Page.Shape now w (step now ev w).
Proof.
  assert (Hid : step now ev w = w -> Page.Shape now w (step now ev w)).
  { intros ->; apply (Page.ShapeInput now w w (input w));
      [left; reflexivity | symmetry; apply world_eta]. }
  assert (Htrig : isTrigger ev -> Page.Shape now w (step now ev w)).
  { intros Hev.
    destruct (MessageInput.mayEmit (composerDisabled w) (input w)) eqn:Hg.
    - apply Page.ShapeSend; [exact Hg|].
      apply (step_trigger_emits now ev w Hev Hg).
    - apply Hid, (step_trigger_silent now ev w Hev Hg). }
  destruct ev as [value | e caret | | | | id | i o].
  - rewrite (step_input_only now (Change value) w
               (MessageInput.handleChange value)
               eq_refl (handleChange_no_emission value)).
    eapply Page.ShapeInput; [apply handleChange_bounded | reflexivity].
  - destruct (eqb (MessageInput.key e) MessageInput.Enter
              && negb (MessageInput.shiftKey e)) eqn:He.
    + apply Htrig; right; exists caret.
      rewrite (keyEvent_enter _ He); reflexivity.
    + destruct (eqb (MessageInput.key e) MessageInput.Enter) eqn:Hk.
      * rewrite (step_input_only now (KeyDown e caret) w
                   (MessageInput.handleChange
                      (insertLineBreak caret
                         (MessageInput.message (input w))))).
        -- eapply Page.ShapeInput;
             [apply handleChange_bounded | reflexivity].
        -- unfold handle, MessageInput.handleKeyDown.
           rewrite Hk; simpl in He |- *; rewrite He; reflexivity.
        -- apply handleChange_no_emission.
      * apply Hid, step_identity.
        unfold handle, MessageInput.handleKeyDown.
        rewrite Hk; reflexivity.
  - apply Htrig; left; reflexivity.
  - rewrite (step_input_only now CompositionStart w
               MessageInput.handleCompositionStart
               eq_refl eq_refl).
    eapply Page.ShapeInput; cycle 1; [reflexivity | left; reflexivity].
  - rewrite (step_input_only now CompositionEnd w
               MessageInput.handleCompositionEnd
               eq_refl eq_refl).
    eapply Page.ShapeInput; cycle 1; [reflexivity | left; reflexivity].
  - destruct (same (activeId w) (Some id)) eqn:Hs.
    + apply Hid, step_select_same, Hs.
    + apply (Page.ShapeSelect now w _ id Hs), step_select, Hs.
  - destruct (nth_error (pending w) i) as [[c | p body]|] eqn:Hi.
    + destruct o as [data | data |].
      * eapply Page.ShapeFetched; [exact Hi|].
        apply (step_settle_fetch now w i c (History data) Hi).
      * apply Hid, (step_settle_fetch now w i c (Chat data) Hi).
      * eapply Page.ShapeFetched; [exact Hi|].
        apply (step_settle_fetch now w i c Failure Hi).
    + destruct o as [data | data |].
      * apply Hid, step_identity; unfold handle; rewrite Hi; reflexivity.
      * destruct (truthy_opt (ChatInterface.conversationId p)) eqn:Hp.
        -- eapply Page.ShapeAnswered; [exact Hi|].
           apply (step_settle_send_success now w i p body data Hi Hp).
        -- apply (step_settle_adopting now w i p body data Hi Hp).
      * eapply Page.ShapeAnswered; [exact Hi|].
        apply (step_settle_send_failure now w i p body Hi).
    + apply Hid, step_identity; unfold handle; rewrite Hi; reflexivity.
Qed.

End Shapes.

(** ** What every run of the page keeps *)

Section Reachable.

Import System.

Lemma Forall_removeNth (P : Pending -> Prop) (i : nat) (l : list Pending) :
  Forall P l -> Forall P (removeNth i l).
Proof.
  revert i; induction l as [|x r IH]; intros i H; destruct i; simpl;
    try exact H; inversion H; subst; auto.
Qed.

Lemma Forall_nth_error (P : Pending -> Prop) (i : nat) (l : list Pending)
  (x : Pending) :
  Forall P l -> nth_error l i = Some x -> P x.
Proof.
  intros H Hi; apply (proj1 (Forall_forall P l) H), (nth_error_In l i Hi).
Qed.

Lemma mayEmit_active (w : World) :
  MessageInput.mayEmit (composerDisabled w) (input w) = true ->
  truthy_opt (activeId w) = true
  /\ ChatInterface.loading (chat w) = false
  /\ trim (MessageInput.message (input w)) <> [].
Proof.
  intros Hg; apply mayEmit_true in Hg; destruct Hg as (Ht & _ & Hd).
  unfold composerDisabled, ChatInterface.composerDisabled, activeId in *.
  simpl in Hd.
  destruct (truthy_opt (App.currentConversationId (app w)));
    [auto | discriminate].
Qed.

Lemma nth_error_nil_none (i : nat) (x : Pending) :
  nth_error (@nil Pending) i = Some x -> False.
Proof. destruct i; discriminate. Qed.

Lemma initial_invariant (userId : jsstring) :
  Page.Invariant userId (initial userId).
Proof.
  constructor; simpl; auto.
  - unfold MessageInput.maxLength; lia.
  - reflexivity.
Qed.

Lemma step_invariant (uid now : jsstring) (ev : Event) (w : World) :
  Page.Invariant uid w -> Page.Invariant uid (step now ev w).
Proof.
  intros [Hu Hd Hp Hidle Hl].
  pose proof (step_loadingTracksSend now ev w Hl) as Hl'.
  assert (Hbusy : forall i x, nth_error (pending w) i = Some x ->
                              activeId w <> None).
  { intros i x Hi Hn; destruct (Hidle Hn) as (_ & He & _).
    rewrite He in Hi; exact (nth_error_nil_none _ _ Hi). }
  destruct (step_shape now ev w)
    as [st Hst H | Hg H | id Hs H | i c l Hi H | i p body m Hi H
        | i p body Hi Hf _ _ _ _].
  - constructor; try exact Hl'; rewrite H; simpl; auto.
    destruct Hst as [-> | Hst]; assumption.
  - destruct (mayEmit_active w Hg) as (Ha & _ & Ht).
    constructor; try exact Hl'; rewrite H; simpl; auto.
    + unfold MessageInput.maxLength; lia.
    + apply Forall_app; split; [exact Hp|].
      constructor; [|constructor]; simpl.
      repeat split; auto using trim_idempotent.
    + unfold activeId in *; simpl; intros Hn; rewrite Hn in Ha.
      discriminate.
  - constructor; try exact Hl'; rewrite H;
      destruct (truthy id) eqn:Ht; simpl; auto;
      try (unfold activeId; simpl; discriminate).
    apply Forall_app; split; [exact Hp|].
    constructor; [exact Ht | constructor].
  - constructor; try exact Hl'; rewrite H; simpl; auto.
    + apply Forall_removeNth, Hp.
    + intros Hn; destruct (Hbusy _ _ Hi Hn).
  - constructor; try exact Hl'; rewrite H; simpl; auto.
    + apply Forall_removeNth, Hp.
    + intros Hn; destruct (Hbusy _ _ Hi Hn).
  - pose proof (Forall_nth_error _ _ _ _ Hp Hi) as (Ht & _).
    rewrite Ht in Hf; discriminate.
Qed.

Lemma exec_invariant (uid : jsstring) (evs : list (jsstring * Event))
  (w : World) :
  Page.Invariant uid w -> Page.Invariant uid (exec evs w).
Proof.
  unfold exec; revert w; induction evs as [|[now ev] r IH]; intros w Hw;
    simpl; [exact Hw|].
  apply IH, step_invariant, Hw.
Qed.

Lemma reachable_invariant (uid : jsstring) (evs : list (jsstring * Event)) :
  Page.Invariant uid (exec evs (initial uid)).
Proof. apply exec_invariant, initial_invariant. Qed.

Lemma exec_app (evs more : list (jsstring * Event)) (w : World) :
  exec (evs ++ more) w = exec more (exec evs w).
Proof. unfold exec; apply fold_left_app. Qed.

(** Under the invariant a step never takes the active identifier back to
    [null]. *)
Lemma step_keeps_conversation (uid now : jsstring) (ev : Event) (w : World) :
  Page.Invariant uid w -> activeId w <> None ->
  activeId (step now ev w) <> None.
Proof.
  intros [Hu Hd Hp Hidle Hl] Ha.
  destruct (step_shape now ev w)
    as [st Hst H | Hg H | id Hs H | i c l Hi H | i p body m Hi H
        | i p body Hi Hf _ _ _ _];
    try (rewrite H; exact Ha).
  - rewrite H; destruct (truthy id); unfold activeId; simpl; discriminate.
  - pose proof (Forall_nth_error _ _ _ _ Hp Hi) as (Ht & _).
    rewrite Ht in Hf; discriminate.
Qed.

End Reachable.

(** ** More on the text that is sent *)

Section SentText.

Import MessageInput.

Lemma trimStart_split (s : jsstring) :
  exists pre, s = pre ++ trimStart s /\ forallb isWhiteSpace pre = true.
Proof.
  induction s as [|c r (pre & Hr & Hpre)]; simpl.
  - exists []; split; reflexivity.
  - destruct (isWhiteSpace c) eqn:Hc.
    + exists (c :: pre); simpl; rewrite Hc, Hpre, <- Hr; split; reflexivity.
    + exists []; split; reflexivity.
Qed.

Lemma forallb_rev (s : jsstring) :
  forallb isWhiteSpace (rev s) = forallb isWhiteSpace s.
Proof.
  induction s as [|c r IH]; simpl; [reflexivity|].
  rewrite forallb_app, IH; simpl; rewrite andb_true_r; apply andb_comm.
Qed.

Lemma trimEnd_split (s : jsstring) :
  exists post, s = trimEnd s ++ post /\ forallb isWhiteSpace post = true.
Proof.
  unfold trimEnd; destruct (trimStart_split (rev s)) as (pre & Hr & Hpre).
  exists (rev pre); split; [|rewrite forallb_rev; exact Hpre].
  rewrite <- rev_app_distr, <- Hr, rev_involutive; reflexivity.
Qed.

(** [trim] keeps one run of the string and drops white space only. *)
Lemma trim_split (s : jsstring) :
  exists pre post,
    s = pre ++ trim s ++ post
    /\ forallb isWhiteSpace pre = true /\ forallb isWhiteSpace post = true.
Proof.
  destruct (trimStart_split s) as (pre & Hs & Hpre).
  destruct (trimEnd_split (trimStart s)) as (post & Ht & Hpost).
  exists pre, post; unfold trim; rewrite <- Ht, <- Hs; auto.
Qed.

Lemma trim_headKept (s : jsstring) :
  headKept (trim s) /\ headKept (rev (trim s)).
Proof.
  split.
  - apply trimEnd_headKept, trimStart_headKept.
  - unfold trim, trimEnd; rewrite rev_involutive; apply trimStart_headKept.
Qed.

Lemma trim_blank (s : jsstring) :
  forallb isWhiteSpace s = true -> trim s = [].
Proof.
  intros H; assert (Hs : trimStart s = []).
  { induction s as [|c r IH]; simpl in *; [reflexivity|].
    apply andb_true_iff in H; destruct H as [Hc Hr].
    rewrite Hc; exact (IH Hr). }
  unfold trim; rewrite Hs; reflexivity.
Qed.

Lemma emissions_handleSubmit (disabled : bool) (st : State) :
  emissions (handleSubmit disabled st)
  = if mayEmit disabled st then [trim (message st)] else [].
Proof.
  destruct (mayEmit disabled st) eqn:Hg.
  - rewrite (handleSubmit_emits _ _ Hg); reflexivity.
  - rewrite (handleSubmit_silent _ _ Hg); reflexivity.
Qed.

Lemma emissions_handleKeyDown (disabled : bool) (st : State)
  (e : KeyEvent) (t : jsstring) :
  In t (emissions (handleKeyDown disabled st e)) ->
  In t (emissions (handleSubmit disabled st)).
Proof.
  unfold handleKeyDown; destruct (eqb (key e) Enter && negb (shiftKey e));
    simpl; [exact (fun H => H) | intros []].
Qed.

(** X2. Whatever [MessageInput] hands to [onSendMessage], by the button
    or by the key, is the draft without the white space around it and is
    otherwise the draft: it is not empty, neither starts nor ends with
    white space, and the draft is white space, the text, white space. The
    guard of [sendMessage] lets every such text through: the message is
    appended, [loading] raised and the request dispatched. *)
Theorem X2_emitted_text (disabled : bool) (st : State) (e : KeyEvent)
  (t : jsstring) :
  In t (emissions (handleSubmit disabled st))
  \/ In t (emissions (handleKeyDown disabled st e)) ->
  t <> []
  /\ headKept t /\ headKept (rev t)
  /\ (exists pre post,
        message st = pre ++ t ++ post
        /\ forallb isWhiteSpace pre = true
        /\ forallb isWhiteSpace post = true)
  /\ (forall (p : ChatInterface.Props) (now : jsstring),
        ChatInterface.sendMessage p now t
        = [ChatInterface.AppendMessage (ChatInterface.userMessage p now t);
           ChatInterface.SetLoading true;
           ChatInterface.AxiosPost
             (ChatRequest.mk t (ChatInterface.userId p)
                (ChatInterface.conversationId p))]).
Proof.
  intros H.
  assert (Hin : In t (emissions (handleSubmit disabled st)))
    by (destruct H as [H | H];
        [exact H | exact (emissions_handleKeyDown _ _ _ _ H)]).
  rewrite emissions_handleSubmit in Hin.
  destruct (mayEmit disabled st) eqn:Hg; [|destruct Hin].
  destruct Hin as [<- | []].
  apply mayEmit_true in Hg; destruct Hg as (Ht & _ & _).
  destruct (trim_headKept (message st)) as (Hh & Hr).
  repeat apply conj; try assumption.
  - apply trim_split.
  - intros p now; unfold ChatInterface.sendMessage.
    rewrite trim_idempotent, (proj2 (truthy_nonempty _) Ht); reflexivity.
Qed.

(** X2 on the draft [" hi "]. *)
Lemma X2_emitted_text_witness :
  lit "hi" <> []
  /\ (exists pre post,
        lit " hi " = pre ++ lit "hi" ++ post
        /\ forallb isWhiteSpace pre = true
        /\ forallb isWhiteSpace post = true).
Proof.
  destruct (X2_emitted_text false (mkState (lit " hi ") false) enterKey
              (lit "hi")) as (Hne & _ & _ & Hsplit & _).
  - left; vm_compute; left; reflexivity.
  - split; [exact Hne | exact Hsplit].
Defined.

(** X3. A text of white space only goes nowhere: as a draft it is not
    handed to [onSendMessage] by the button or by any key and the button
    is disabled, and [sendMessage] itself, called with it, returns before
    its first call. *)
Theorem X3_blank_text_ignored (s : jsstring) :
  forallb isWhiteSpace s = true ->
  (forall (disabled composing : bool) (e : KeyEvent),
     emissions (handleSubmit disabled (mkState s composing)) = []
     /\ emissions (handleKeyDown disabled (mkState s composing) e) = []
     /\ sendButtonDisabled disabled (mkState s composing) = true)
  /\ (forall (p : ChatInterface.Props) (now : jsstring),
        ChatInterface.sendMessage p now s = []).
Proof.
  intros Hs; pose proof (trim_blank s Hs) as Ht; split.
  - intros disabled composing e.
    assert (Hg : mayEmit disabled (mkState s composing) = false)
      by (apply mayEmit_false; left; exact Ht).
    repeat apply conj.
    + rewrite emissions_handleSubmit, Hg; reflexivity.
    + unfold handleKeyDown.
      destruct (eqb (key e) Enter && negb (shiftKey e)); [|reflexivity].
      change (emissions (handleSubmit disabled (mkState s composing)) = []).
      rewrite emissions_handleSubmit, Hg; reflexivity.
    + unfold sendButtonDisabled; simpl; rewrite Ht; simpl.
      rewrite orb_true_r; reflexivity.
  - intros p now; unfold ChatInterface.sendMessage; rewrite Ht; reflexivity.
Qed.

(** X3 on a space, a tab, a no-break space and a line feed. *)
Lemma X3_blank_text_ignored_witness :
  emissions (handleSubmit false (mkState [32; 9; 160; 10]%N false)) = []
  /\ ChatInterface.sendMessage
       (ChatInterface.mkProps (Some Sample.convA) Sample.user)
       Sample.t0 [32; 9; 160; 10]%N
     = [].
Proof.
  destruct (X3_blank_text_ignored [32; 9; 160; 10]%N eq_refl)
    as (Hin & Hsend).
  split; [apply (Hin false false enterKey) | apply Hsend].
Defined.

End SentText.

(** ** More on the runs of the page *)

Section Runs.

Import System.

(** X1. However the page is driven, the draft never holds more than 1000
    code units, edits, line breaks and submissions included; so the
    counter, shown above 800, reads from 801/1000 to 1000/1000. *)
Theorem X1_draft_within_limit (userId : jsstring)
  (evs : list (jsstring * Event)) :
  length (MessageInput.message (input (exec evs (initial userId)))) <= 1000
  /\ (Page.showCharacterCount (input (exec evs (initial userId))) = true ->
      801 <= fst (Page.characterCount (input (exec evs (initial userId))))
      /\ fst (Page.characterCount (input (exec evs (initial userId))))
         <= snd (Page.characterCount (input (exec evs (initial userId))))
      /\ snd (Page.characterCount (input (exec evs (initial userId))))
         = 1000).
Proof.
  pose proof (Page.inv_draft _ _ (reachable_invariant userId evs)) as H.
  unfold MessageInput.maxLength in H; split; [exact H|].
  unfold Page.showCharacterCount, Page.characterCount; simpl.
  intros Hs; apply Nat.ltb_lt in Hs.
  unfold MessageInput.maxLength; lia.
Qed.

(** X1 on a draft of 900 units typed in one edit. *)
Lemma X1_draft_within_limit_witness :
  801 <= fst (Page.characterCount
                (input (exec [(Sample.t0, Change (repeat 97%N 900))]
                          (initial Sample.user))))
  /\ fst (Page.characterCount
            (input (exec [(Sample.t0, Change (repeat 97%N 900))]
                      (initial Sample.user))))
     <= snd (Page.characterCount
               (input (exec [(Sample.t0, Change (repeat 97%N 900))]
                         (initial Sample.user))))
  /\ snd (Page.characterCount
            (input (exec [(Sample.t0, Change (repeat 97%N 900))]
                      (initial Sample.user))))
     = 1000.
Proof.
  apply (proj2 (X1_draft_within_limit Sample.user
                  [(Sample.t0, Change (repeat 97%N 900))])).
  vm_compute; reflexivity.
Defined.

(** X4. A passing trigger followed by the resolution of its request
    leaves the user's message and then the reply at the end of the
    timeline, nothing in flight that was not before, the composer enabled
    and the active identifier as it was. The reply is signed ["bot"],
    carries the text and timestamp of the response and is not an error,
    and under it is rendered the workflow of the response. *)
Theorem X4_send_success (now later : jsstring) (ev : Event) (w : World)
  (data : ChatResponse.t) :
  isTrigger ev ->
  MessageInput.mayEmit (composerDisabled w) (input w) = true ->
  timeline (step later (Settle (length (pending w)) (Chat data))
              (step now ev w))
  = timeline w ++
    [ChatInterface.userMessage (App.chatProps (app w)) now
       (trim (MessageInput.message (input w)));
     ChatInterface.botMessage (App.chatProps (app w)) data]
  /\ pending (step later (Settle (length (pending w)) (Chat data))
                (step now ev w))
     = pending w
  /\ composerDisabled (step later (Settle (length (pending w)) (Chat data))
                         (step now ev w))
     = false
  /\ activeId (step later (Settle (length (pending w)) (Chat data))
                 (step now ev w))
     = activeId w
  /\ Msg.user_id (ChatInterface.botMessage (App.chatProps (app w)) data)
     = ChatInterface.bot
  /\ Msg.message (ChatInterface.botMessage (App.chatProps (app w)) data)
     = ChatResponse.response data
  /\ Msg.timestamp (ChatInterface.botMessage (App.chatProps (app w)) data)
     = ChatResponse.timestamp data
  /\ Msg.isError (ChatInterface.botMessage (App.chatProps (app w)) data)
     = false
  /\ snd (ChatInterface.renderMessage (App.chatProps (app w))
            (ChatInterface.botMessage (App.chatProps (app w)) data))
     = ChatInterface.renderAgentWorkflow (ChatResponse.agent_workflow data).
Proof.
  intros Hev Hg.
  destruct (mayEmit_active w Hg) as (Ha & _ & _).
  rewrite (step_trigger_emits now ev w Hev Hg); cbv zeta.
  erewrite step_settle_send_success;
    [| simpl; apply nth_error_last | exact Ha].
  unfold timeline, composerDisabled, ChatInterface.composerDisabled,
    activeId in *; simpl.
  rewrite <- app_assoc, removeNth_last, Ha; simpl.
  destruct (ChatResponse.agent_workflow data);
    repeat apply conj; reflexivity.
Qed.

(** X4 on the sample: the question and the reply of the documentation. *)
Lemma X4_send_success_witness :
  timeline (step Sample.t2 (Settle 0 (Chat Sample.reply))
              (step Sample.t1 Click Sample.ready))
  = [Sample.earlier;
     ChatInterface.userMessage (App.chatProps (app Sample.ready))
       Sample.t1 Sample.question;
     ChatInterface.botMessage (App.chatProps (app Sample.ready))
       Sample.reply]
  /\ pending (step Sample.t2 (Settle 0 (Chat Sample.reply))
                (step Sample.t1 Click Sample.ready))
     = [].
Proof.
  destruct (X4_send_success Sample.t1 Sample.t2 Click Sample.ready
              Sample.reply) as (Ht & Hp & _).
  - left; reflexivity.
  - vm_compute; reflexivity.
  - split; [exact Ht | exact Hp].
Defined.

Lemma outstandingSends_positive (l : list Pending) :
  0 < outstandingSends l ->
  exists i p body, nth_error l i = Some (PendingPost p body).
Proof.
  induction l as [|[c | p body] r IH]; simpl; intros H.
  - lia.
  - destruct (IH H) as (i & p & body & Hi); exists (S i), p, body; exact Hi.
  - exists 0, p, body; reflexivity.
Qed.

(** X5. The composer is never left waiting for nothing: in every state
    the page can reach, [loading] is up only while a send is in flight,
    and when that send settles, with a reply or with a failure, [loading]
    is down and no send is in flight. With [loading] down none is. *)
Theorem X5_loading_is_released (userId : jsstring)
  (evs : list (jsstring * Event)) :
  (ChatInterface.loading (chat (exec evs (initial userId))) = true ->
   exists (i : nat) (p : ChatInterface.Props) (body : ChatRequest.t),
     nth_error (pending (exec evs (initial userId))) i
     = Some (PendingPost p body)
     /\ forall (now : jsstring) (o : Outcome),
          (o = Failure \/ exists data, o = Chat data) ->
          ChatInterface.loading
            (chat (step now (Settle i o) (exec evs (initial userId))))
          = false
          /\ outstandingSends
               (pending (step now (Settle i o) (exec evs (initial userId))))
             = 0)
  /\ (ChatInterface.loading (chat (exec evs (initial userId))) = false ->
      outstandingSends (pending (exec evs (initial userId))) = 0).
Proof.
  pose proof (reachable_invariant userId evs) as Hinv.
  set (w := exec evs (initial userId)) in *.
  pose proof (Page.inv_loading _ _ Hinv) as Hl; unfold loadingTracksSend in Hl.
  split; intros Hb; rewrite Hb in Hl; [|exact Hl].
  destruct (outstandingSends_positive (pending w)) as (i & p & body & Hi);
    [lia|].
  exists i, p, body; split; [exact Hi|].
  intros now o Ho.
  pose proof (outstandingSends_settle_post _ _ _ _ Hi) as Hn.
  pose proof (Forall_nth_error _ _ _ _ (Page.inv_pending _ _ Hinv) Hi)
    as (Ht & _).
  destruct Ho as [-> | [data ->]].
  - rewrite (step_settle_send_failure now w i p body Hi); simpl.
    split; [reflexivity | lia].
  - rewrite (step_settle_send_success now w i p body data Hi Ht); simpl.
    split; [reflexivity | lia].
Qed.

(** X5 on the sample with the question sent: the send in flight is the
    first request, and its failure lowers [loading]. *)
Lemma X5_loading_is_released_witness :
  exists (i : nat) (p : ChatInterface.Props) (body : ChatRequest.t),
    nth_error
      (pending
         (exec [(Sample.t0, SelectConversation Sample.convA);
                (Sample.t0, Change Sample.question);
                (Sample.t1, Click)] (initial Sample.user))) i
    = Some (PendingPost p body)
    /\ forall (now : jsstring) (o : Outcome),
         (o = Failure \/ exists data, o = Chat data) ->
         ChatInterface.loading
           (chat (step now (Settle i o)
                    (exec [(Sample.t0, SelectConversation Sample.convA);
                           (Sample.t0, Change Sample.question);
                           (Sample.t1, Click)] (initial Sample.user))))
         = false
         /\ outstandingSends
              (pending
                 (step now (Settle i o)
                    (exec [(Sample.t0, SelectConversation Sample.convA);
                           (Sample.t0, Change Sample.question);
                           (Sample.t1, Click)] (initial Sample.user))))
            = 0.
Proof.
  apply (proj1 (X5_loading_is_released Sample.user
                  [(Sample.t0, SelectConversation Sample.convA);
                   (Sample.t0, Change Sample.question);
                   (Sample.t1, Click)])).
  vm_compute; reflexivity.
Defined.

(** X6. Until a conversation is selected nothing happens on the page
    beyond the draft: whatever events come, while the active identifier
    is [null] the timeline is empty, no request is in flight, [loading]
    is down, the composer is disabled and a trigger changes nothing. *)
Theorem X6_no_conversation_no_activity (userId : jsstring)
  (evs : list (jsstring * Event)) :
  activeId (exec evs (initial userId)) = None ->
  timeline (exec evs (initial userId)) = []
  /\ pending (exec evs (initial userId)) = []
  /\ ChatInterface.loading (chat (exec evs (initial userId))) = false
  /\ composerDisabled (exec evs (initial userId)) = true
  /\ (forall (now : jsstring) (ev : Event),
        isTrigger ev ->
        step now ev (exec evs (initial userId)) = exec evs (initial userId)).
Proof.
  intros Hn.
  destruct (Page.inv_idle _ _ (reachable_invariant userId evs) Hn)
    as (Ht & Hp & Hl).
  assert (Hd : composerDisabled (exec evs (initial userId)) = true).
  { unfold composerDisabled, ChatInterface.composerDisabled; simpl.
    unfold activeId in Hn; rewrite Hn; reflexivity. }
  repeat apply conj; try assumption.
  intros now ev Hev; apply step_trigger_silent; [exact Hev|].
  apply mayEmit_false; right; right; exact Hd.
Qed.

(** X6 on a page where the question was typed and Enter pressed before
    any conversation was selected. *)
Lemma X6_no_conversation_no_activity_witness :
  timeline (exec [(Sample.t0, Change Sample.question);
                  (Sample.t1, KeyDown MessageInput.enterKey 0)]
              (initial Sample.user)) = []
  /\ pending (exec [(Sample.t0, Change Sample.question);
                    (Sample.t1, KeyDown MessageInput.enterKey 0)]
                (initial Sample.user)) = [].
Proof.
  destruct (X6_no_conversation_no_activity Sample.user
              [(Sample.t0, Change Sample.question);
               (Sample.t1, KeyDown MessageInput.enterKey 0)])
    as (Ht & Hp & _).
  - vm_compute; reflexivity.
  - split; [exact Ht | exact Hp].
Defined.

(** X7. Once a conversation is active the page never returns to the
    state without one: no run of the page reaches the call
    [setCurrentConversationId(null)]. *)
Theorem X7_conversation_stays_selected (userId : jsstring)
  (evs more : list (jsstring * Event)) :
  activeId (exec evs (initial userId)) <> None ->
  activeId (exec (evs ++ more) (initial userId)) <> None.
Proof.
  rewrite exec_app.
  pose proof (reachable_invariant userId evs) as Hinv.
  generalize dependent (exec evs (initial userId)).
  induction more as [|[now ev] r IH]; intros w Hinv Ha; [exact Ha|].
  apply (IH (step now ev w)).
  - apply step_invariant, Hinv.
  - apply (step_keeps_conversation userId now ev w Hinv Ha).
Qed.

(** X7 on the sample: conversation A is selected, the question sent and
    answered with an identifier, and a conversation is still active. *)
Lemma X7_conversation_stays_selected_witness :
  activeId
    (exec ([(Sample.t0, SelectConversation Sample.convA)] ++
           [(Sample.t0, Change Sample.question);
            (Sample.t1, Click);
            (Sample.t2, Settle 1 (Chat Sample.reply))])
       (initial Sample.user))
  <> None.
Proof.
  apply X7_conversation_stays_selected.
  vm_compute; discriminate.
Defined.

(** X8. Every send in flight, in every state the page can reach, was
    made under a truthy identifier and posts that identifier, the user of
    the page, and a text that is not empty and has no white space around
    it; so when it resolves, whatever the response, [sendMessage] does
    not call [onNewConversation]. *)
Theorem X8_sends_in_flight (userId : jsstring)
  (evs : list (jsstring * Event)) (i : nat) (p : ChatInterface.Props)
  (body : ChatRequest.t) :
  nth_error (pending (exec evs (initial userId))) i
  = Some (PendingPost p body) ->
  truthy_opt (ChatInterface.conversationId p) = true
  /\ ChatRequest.conversation_id body = ChatInterface.conversationId p
  /\ ChatRequest.user_id body = userId
  /\ ChatRequest.message body <> []
  /\ trim (ChatRequest.message body) = ChatRequest.message body
  /\ (forall (data : ChatResponse.t) (id : jsstring),
        ~ In (ChatInterface.OnNewConversation id)
             (ChatInterface.sendMessage_resolved p data)).
Proof.
  intros Hi.
  pose proof (Forall_nth_error _ _ _ _
                (Page.inv_pending _ _ (reachable_invariant userId evs)) Hi)
    as (Ht & _ & Hu & Hc & Hm & Htrim).
  repeat apply conj; try assumption.
  intros data id; unfold ChatInterface.sendMessage_resolved; rewrite Ht.
  destruct (ChatResponse.conversation_id data); simpl;
    intros [H | [H | H]]; try discriminate H; exact H.
Qed.

(** X8 on the sample with the question sent. *)
Lemma X8_sends_in_flight_witness :
  ChatRequest.user_id (ChatRequest.mk Sample.question Sample.user
                         (Some Sample.convA)) = Sample.user
  /\ forall (data : ChatResponse.t) (id : jsstring),
       ~ In (ChatInterface.OnNewConversation id)
            (ChatInterface.sendMessage_resolved
               (ChatInterface.mkProps (Some Sample.convA) Sample.user) data).
Proof.
  destruct (X8_sends_in_flight Sample.user
              [(Sample.t0, SelectConversation Sample.convA);
               (Sample.t0, Change Sample.question);
               (Sample.t1, Click)]
              1 (ChatInterface.mkProps (Some Sample.convA) Sample.user)
              (ChatRequest.mk Sample.question Sample.user
                 (Some Sample.convA)))
    as (_ & _ & Hu & _ & _ & Hnever).
  - vm_compute; reflexivity.
  - split; [exact Hu | exact Hnever].
Defined.

End Runs.

(** ** More on the composer *)

Section Composer.

Import System.

(** X9. The send button is enabled exactly when pressing it sends: it is
    disabled if and only if [handleSubmit] hands nothing to
    [onSendMessage], and enabled if and only if it hands over the trimmed
    draft, once. *)
Theorem X9_button_follows_guard (disabled : bool)
  (st : MessageInput.State) :
  (MessageInput.sendButtonDisabled disabled st = true <->
   MessageInput.emissions (MessageInput.handleSubmit disabled st) = [])
  /\ (MessageInput.sendButtonDisabled disabled st = false <->
      MessageInput.emissions (MessageInput.handleSubmit disabled st)
      = [trim (MessageInput.message st)]).
Proof.
  rewrite emissions_handleSubmit.
  unfold MessageInput.sendButtonDisabled, MessageInput.mayEmit.
  destruct (truthy (trim (MessageInput.message st))), disabled,
    (MessageInput.isComposing st); simpl; split; split;
    intros H; try reflexivity; discriminate H.
Qed.

(** X9 on an enabled composer with a draft, and on a disabled one. *)
Lemma X9_button_follows_guard_witness :
  MessageInput.emissions
    (MessageInput.handleSubmit false (MessageInput.mkState (lit "oi") false))
  = [lit "oi"]
  /\ MessageInput.emissions
       (MessageInput.handleSubmit true (MessageInput.mkState (lit "oi") false))
     = [].
Proof.
  split.
  - apply (proj1 (proj2 (X9_button_follows_guard false
                           (MessageInput.mkState (lit "oi") false)))).
    vm_compute; reflexivity.
  - apply (proj1 (proj1 (X9_button_follows_guard true
                           (MessageInput.mkState (lit "oi") false)))).
    vm_compute; reflexivity.
Defined.

(** X10. While a composition is open no trigger does anything: after
    [compositionstart] the button and Enter without Shift leave the whole
    page as it is, until [compositionend]; the two events themselves
    change the flag and nothing else, the draft included. *)
Theorem X10_composition_window (now later : jsstring) (w : World) :
  (forall ev : Event,
     isTrigger ev ->
     step later ev (step now CompositionStart w)
     = step now CompositionStart w)
  /\ step now CompositionStart w
     = mkWorld (app w) (chat w)
         (MessageInput.mkState (MessageInput.message (input w)) true)
         (pending w)
  /\ step later CompositionEnd (step now CompositionStart w)
     = mkWorld (app w) (chat w)
         (MessageInput.mkState (MessageInput.message (input w)) false)
         (pending w).
Proof.
  assert (Hs : step now CompositionStart w
               = mkWorld (app w) (chat w)
                   (MessageInput.mkState (MessageInput.message (input w))
                      true)
                   (pending w)).
  { rewrite (step_input_only now CompositionStart w
               MessageInput.handleCompositionStart eq_refl eq_refl).
    reflexivity. }
  repeat apply conj.
  - intros ev Hev; apply step_trigger_silent; [exact Hev|].
    apply mayEmit_false; right; left; rewrite Hs; reflexivity.
  - exact Hs.
  - rewrite Hs.
    rewrite (step_input_only later CompositionEnd _
               MessageInput.handleCompositionEnd eq_refl eq_refl).
    reflexivity.
Qed.

(** X10 on the sample: Enter during a composition over the question. *)
Lemma X10_composition_window_witness :
  step Sample.t2 (KeyDown MessageInput.enterKey 0)
       (step Sample.t1 CompositionStart Sample.ready)
  = step Sample.t1 CompositionStart Sample.ready.
Proof.
  apply (proj1 (X10_composition_window Sample.t1 Sample.t2 Sample.ready)).
  right; exists 0; reflexivity.
Defined.

Lemma keyEvent_other (e : MessageInput.KeyEvent) :
  e <> MessageInput.enterKey ->
  eqb (MessageInput.key e) MessageInput.Enter
  && negb (MessageInput.shiftKey e) = false.
Proof.
  intros Hne.
  destruct (eqb (MessageInput.key e) MessageInput.Enter
            && negb (MessageInput.shiftKey e)) eqn:He; [|reflexivity].
  destruct (Hne (keyEvent_enter e He)).
Qed.

(** X11. [handleKeyDown] reacts to one key event and no other, whatever
    the state and whether the composer is disabled: it prevents the
    default action of the key if and only if the event is Enter with
    Shift up, and for every other event, Enter with Shift down among them,
    it makes no call at all, so hands nothing to [onSendMessage] and sets
    nothing. *)
Theorem X11_other_keys (disabled : bool) (st : MessageInput.State)
  (e : MessageInput.KeyEvent) :
  (MessageInput.defaultPrevented (MessageInput.handleKeyDown disabled st e)
   = true <-> e = MessageInput.enterKey)
  /\ (e <> MessageInput.enterKey ->
      MessageInput.handleKeyDown disabled st e = []
      /\ MessageInput.emissions (MessageInput.handleKeyDown disabled st e)
         = []
      /\ MessageInput.run (MessageInput.handleKeyDown disabled st e) st
         = st).
Proof.
  split.
  - split.
    + intros H.
      destruct (eqb (MessageInput.key e) MessageInput.Enter
                && negb (MessageInput.shiftKey e)) eqn:He.
      * apply keyEvent_enter, He.
      * unfold MessageInput.handleKeyDown in H; rewrite He in H.
        discriminate H.
    + intros ->; reflexivity.
  - intros Hne; unfold MessageInput.handleKeyDown.
    rewrite (keyEvent_other e Hne); repeat split.
Qed.

(** X11 on the letter a, and on Enter with Shift down. *)
Lemma X11_other_keys_witness :
  MessageInput.handleKeyDown false (MessageInput.mkState (lit "oi") false)
    (MessageInput.mkKey (lit "a") false) = []
  /\ MessageInput.handleKeyDown true (MessageInput.mkState (lit "oi") false)
       (MessageInput.mkKey MessageInput.Enter true) = [].
Proof.
  split.
  - apply (proj2 (X11_other_keys false
                    (MessageInput.mkState (lit "oi") false)
                    (MessageInput.mkKey (lit "a") false))).
    vm_compute; discriminate.
  - apply (proj2 (X11_other_keys true
                    (MessageInput.mkState (lit "oi") false)
                    (MessageInput.mkKey MessageInput.Enter true))).
    vm_compute; discriminate.
Defined.

End Composer.

(** ** More on the timeline and its rendering *)

Section Timeline.

Import System.

(** X12. Entries of the timeline are never dropped, moved or rewritten
    except by the arrival of a history or by a change of conversation
    that empties it: in every step either the timeline keeps all its
    entries in place and gains at most one at the end, or a history
    fetch in flight settles in that step, or the active identifier
    changes and the timeline is empty afterwards. *)
Theorem X12_timeline_only_grows (now : jsstring) (ev : Event) (w : World) :
  (exists suffix : list Msg.t,
     timeline (step now ev w) = timeline w ++ suffix /\ length suffix <= 1)
  \/ (exists (i : nat) (c : jsstring),
        nth_error (pending w) i = Some (PendingGet c)
        /\ pending (step now ev w) = removeNth i (pending w))
  \/ (same (activeId w) (activeId (step now ev w)) = false
      /\ timeline (step now ev w) = []).
Proof.
  destruct (step_shape now ev w)
    as [st Hst H | Hg H | id Hs H | i c l Hi H | i p body m Hi H
        | i p body Hi Hf _ _ _ [(Hlen & Hfirst) | Hclear]].
  - left; exists []; rewrite H, app_nil_r; simpl; split; [reflexivity | lia].
  - left; eexists; rewrite H; split; [reflexivity | simpl; lia].
  - destruct (truthy id) eqn:Ht.
    + left; exists []; rewrite H, app_nil_r; simpl.
      split; [reflexivity | lia].
    + right; right; rewrite H; split; [exact Hs | reflexivity].
  - right; left; exists i, c; rewrite H; split; [exact Hi | reflexivity].
  - left; eexists; rewrite H; split; [reflexivity | simpl; lia].
  - left; exists (skipn (length (timeline w)) (timeline (step now ev w))).
    split.
    + pose proof (firstn_skipn (length (timeline w))
                    (timeline (step now ev w))) as E.
      rewrite Hfirst in E; symmetry; exact E.
    + rewrite length_skipn, Hlen; lia.
  - right; right; exact Hclear.
Qed.

End Timeline.

Section Bubbles.

Import ChatInterface.

Lemma bot_is_not_a_user (digits : jsstring) :
  eqb bot (Page.userIdOf digits) = false.
Proof. reflexivity. Qed.

(** X13. On a page whose user identifier is ["user-"] and some digits,
    as [App] makes it, the three messages [sendMessage] builds are told
    apart when rendered, whatever props the request captured: the user's
    message is labelled as the user's and set to the right, the reply is
    labelled as the assistant's, the failure notice as an error, in red.
    A message of the history signed by the user is shown as the user's
    even when it is flagged as an error. *)
Theorem X13_bubbles_told_apart (digits now text : jsstring)
  (cid : option jsstring) (p0 : Props) (data : ChatResponse.t) :
  Message.getUserLabel
    (fst (renderMessage (mkProps cid (Page.userIdOf digits))
            (userMessage (mkProps cid (Page.userIdOf digits)) now text)))
  = [86; 111; 99; 234]%N
  /\ Message.justifyContent
       (fst (renderMessage (mkProps cid (Page.userIdOf digits))
               (userMessage (mkProps cid (Page.userIdOf digits)) now text)))
     = lit "flex-end"
  /\ Message.getUserLabel
       (fst (renderMessage (mkProps cid (Page.userIdOf digits))
               (botMessage p0 data)))
     = lit "Assistente"
  /\ Message.getUserLabel
       (fst (renderMessage (mkProps cid (Page.userIdOf digits))
               (errorMessage p0 now)))
     = lit "Erro"
  /\ Message.backgroundColor
       (fst (renderMessage (mkProps cid (Page.userIdOf digits))
               (errorMessage p0 now)))
     = lit "#dc3545"
  /\ (forall m : Msg.t,
        Msg.user_id m = Page.userIdOf digits ->
        Message.getUserLabel
          (fst (renderMessage (mkProps cid (Page.userIdOf digits)) m))
        = [86; 111; 99; 234]%N
        /\ Message.getUserIcon
             (fst (renderMessage (mkProps cid (Page.userIdOf digits)) m))
           = [55357; 56420]%N).
Proof.
  unfold Message.getUserLabel, Message.justifyContent,
    Message.backgroundColor, Message.getUserIcon, renderMessage.
  cbn [fst isUser isError userMessage botMessage errorMessage Msg.user_id
       Msg.isError userId].
  rewrite eqb_refl, bot_is_not_a_user.
  repeat apply conj; try reflexivity.
  intros m ->; rewrite eqb_refl; split; reflexivity.
Qed.

(** X13 on an error entry of the history that is signed by the user. *)
Lemma X13_bubbles_told_apart_witness :
  Message.getUserLabel
    (fst (renderMessage (mkProps (Some Sample.convA) (Page.userIdOf (lit "k3")))
            (Msg.mk (lit "x") Sample.t0 (Page.userIdOf (lit "k3"))
               (Some Sample.convA) None None true)))
  = [86; 111; 99; 234]%N.
Proof.
  apply (proj2 (proj2 (proj2 (proj2 (proj2
           (X13_bubbles_told_apart (lit "k3") Sample.t0 (lit "x")
              (Some Sample.convA) (mkProps None (lit "u"))
              Sample.reply)))))).
  reflexivity.
Defined.

End Bubbles.

Section SideBar.

Import System.

Lemma step_select_active (now : jsstring) (w : World) (id : jsstring) :
  activeId (step now (SelectConversation id) w) = Some id.
Proof.
  destruct (same (activeId w) (Some id)) eqn:Hs.
  - rewrite (step_select_same now w id Hs); apply same_eq, Hs.
  - rewrite (step_select now w id Hs); destruct (truthy id); reflexivity.
Qed.

(** X14. The button of a new conversation always opens one: whatever
    [uuidv4] returns, the identifier handed to [onSelectConversation] is
    ["conv-"] and at most eight more units, so is truthy; when it is not
    the active one already, selecting it makes it active, dispatches the
    fetch of its history and nothing else, and the composer is then
    disabled only while a send is in flight. *)
Theorem X14_new_conversation (now uuid : jsstring) (w : World) :
  ConversationList.selections (ConversationList.createNewConversation uuid)
  = [ConversationList.newConversationId uuid]
  /\ truthy (ConversationList.newConversationId uuid) = true
  /\ 5 <= length (ConversationList.newConversationId uuid) <= 13
  /\ (same (activeId w) (Some (ConversationList.newConversationId uuid))
      = false ->
      activeId (step now (SelectConversation
                            (ConversationList.newConversationId uuid)) w)
      = Some (ConversationList.newConversationId uuid)
      /\ pending (step now (SelectConversation
                              (ConversationList.newConversationId uuid)) w)
         = pending w
           ++ [PendingGet (ConversationList.newConversationId uuid)]
      /\ composerDisabled
           (step now (SelectConversation
                        (ConversationList.newConversationId uuid)) w)
         = ChatInterface.loading (chat w)).
Proof.
  repeat apply conj; try reflexivity.
  - unfold ConversationList.newConversationId; rewrite length_app.
    change (length (lit "conv-")) with 5; lia.
  - unfold ConversationList.newConversationId; rewrite length_app.
    change (length (lit "conv-")) with 5.
    pose proof (firstn_le_length 8 uuid); lia.
  - intros Hs; rewrite (step_select now w _ Hs).
    repeat split.
Qed.

(** X14 on the first render and the start of a version 4 identifier. *)
Lemma X14_new_conversation_witness :
  composerDisabled
    (step Sample.t0
       (SelectConversation
          (ConversationList.newConversationId (lit "9b1deb4d-3b7d-4bad")))
       (initial Sample.user))
  = false.
Proof.
  apply (proj2 (proj2 (proj2
           (X14_new_conversation Sample.t0 (lit "9b1deb4d-3b7d-4bad")
              (initial Sample.user))))).
  reflexivity.
Defined.

Lemma items_ids (f : jsstring -> bool) (l : list jsstring) :
  map ConversationList.conversationId
      (map (fun c => ConversationList.mkItem c (f c)) l)
  = l.
Proof.
  induction l as [|c r IH]; simpl; [reflexivity | rewrite IH; reflexivity].
Qed.

(** X15. A click on an item of the list highlights that conversation:
    once the list has loaded, after the identifier of a listed
    conversation is selected the list shows one item per conversation, in
    the order of the response, and the active items are exactly the ones
    of that identifier. *)
Theorem X15_selected_item_is_active (now : jsstring) (w : World)
  (st : ConversationList.State) (id : jsstring) :
  ConversationList.loading st = false ->
  In id (ConversationList.conversations st) ->
  ConversationList.selections (ConversationList.handleConversationSelect id)
  = [id]
  /\ exists items : list ConversationList.Item,
       ConversationList.render
         (ConversationList.props
            (app (step now (SelectConversation id) w))) st
       = ConversationList.Items items
       /\ map ConversationList.conversationId items
          = ConversationList.conversations st
       /\ (forall it : ConversationList.Item,
             In it items ->
             (ConversationList.active it = true <->
              ConversationList.conversationId it = id)).
Proof.
  intros Hl Hin; split; [reflexivity|].
  pose proof (step_select_active now w id) as Ha; unfold activeId in Ha.
  unfold ConversationList.render, ConversationList.props; simpl.
  rewrite Hl, Ha.
  destruct (ConversationList.conversations st) as [|c r] eqn:Hc;
    [destruct Hin|].
  eexists; split; [reflexivity|]; split.
  - exact (items_ids _ (c :: r)).
  - intros it Hit.
    change (In it (map (fun x => ConversationList.mkItem x (eqb x id))
                       (c :: r))) in Hit.
    apply in_map_iff in Hit.
    destruct Hit as (x & <- & _); simpl; apply eqb_eq.
Qed.

(** X15 on a list of the two sample conversations, B clicked. *)
Lemma X15_selected_item_is_active_witness :
  exists items : list ConversationList.Item,
    ConversationList.render
      (ConversationList.props
         (app (step Sample.t1 (SelectConversation Sample.convB)
                 Sample.ready)))
      (ConversationList.mkState [Sample.convA; Sample.convB] false)
    = ConversationList.Items items
    /\ map ConversationList.conversationId items
       = [Sample.convA; Sample.convB]
    /\ (forall it : ConversationList.Item,
          In it items ->
          (ConversationList.active it = true <->
           ConversationList.conversationId it = Sample.convB)).
Proof.
  apply (proj2 (X15_selected_item_is_active Sample.t1 Sample.ready
                  (ConversationList.mkState [Sample.convA; Sample.convB]
                     false)
                  Sample.convB eq_refl (or_intror (or_introl eq_refl)))).
Defined.

End SideBar.

Section ListOfConversations.

Import ConversationList.

(** X16. The list of conversations shows the loading notice, without the
    button of a new conversation, exactly while its fetch is in flight,
    and leaves it however the fetch settles. A failed fetch and a response
    without [conversation_ids] are shown as the empty list, not as an
    error; a response with identifiers is shown as one item each, in the
    order of the response, the active one marked. *)
Theorem X16_list_fetch_settles (p : Props) (st : State) :
  render p (run (fetchConversations p) st) = Loading
  /\ render p (run (fetchConversations p ++ fetchConversations_rejected) st)
     = EmptyState
  /\ render p (run (fetchConversations p
                    ++ fetchConversations_resolved
                         (UserConversations.mk None)) st)
     = EmptyState
  /\ render p (run (fetchConversations p
                    ++ fetchConversations_resolved
                         (UserConversations.mk (Some []))) st)
     = EmptyState
  /\ (forall (c : jsstring) (r : list jsstring),
        exists items : list Item,
          render p (run (fetchConversations p
                         ++ fetchConversations_resolved
                              (UserConversations.mk (Some (c :: r)))) st)
          = Items items
          /\ map conversationId items = c :: r
          /\ forall it : Item,
               In it items ->
               (active it = true <->
                currentConversationId p = Some (conversationId it))).
Proof.
  repeat apply conj; try reflexivity.
  intros c r; eexists; split; [reflexivity|]; split.
  - exact (items_ids _ (c :: r)).
  - intros it Hit.
    change (In it (map (fun x => mkItem x
                                   (same (Some x) (currentConversationId p)))
                       (c :: r))) in Hit.
    apply in_map_iff in Hit; destruct Hit as (x & <- & _).
    cbn [active conversationId]; rewrite same_eq; split; congruence.
Qed.

End ListOfConversations.

(** ** Sends and the identifier of the conversation *)

Section Adoption.

Import System.




End Adoption.
